(** * clearag-api: the request pipeline of the ClearAg weather-data client

    A shallow embedding of the two client classes of the repository,
    [ClearAg] (src/lib/clearag.js) and [ClearAgApi] (the second source
    file), and the properties of their request pipeline: URL building,
    credential injection, classification of the transport's answer and
    the log line.

    Layout: [Js] holds the fragment of JavaScript the two classes use
    (values, truthiness, ToString, property reads and writes in strict
    mode, JSON.stringify, lodash's compact, Array.prototype.join) and
    the effects (exceptions, the requests handed to the transport, the
    lines handed to the logger).  [ClearAg] and [ClearAgApi] follow the
    two classes method by method. *)

From Stdlib Require Import ZArith String Ascii List Bool Lia DecimalString.
Import ListNotations.

Set Warnings "-register-all".

Local Open Scope string_scope.
Local Open Scope Z_scope.

Module Js.

(** ** Numbers

    A JavaScript number is modelled as a finite decimal
    [num_digits * 10 ^ (- num_scale)]; NaN, the infinities and the
    negative zero are outside the model.  [number_to_string] is
    Number.prototype.toString: with [s] the significant digits ([k] of
    them) and [n] the position of the decimal point, plain digits for
    [k <= n <= 21], a point inside the digits for [0 < n <= 21],
    "0." and zeros for [-6 < n <= 0], and the exponent form
    everywhere else.  The decimals a double holds exactly as printed
    are those of at most 15 significant digits within the normal
    range ([exact_number]); on them the text is the one JavaScript
    prints. *)

Record number : Type := Num { num_digits : Z; num_scale : nat }.

Definition of_int (z : Z) : number := Num z 0.

Definition number_truthy (n : number) : bool := negb (num_digits n =? 0).

Definition digits_of (z : Z) : string :=
  NilZero.string_of_uint (N.to_uint (Z.to_N z)).

Fixpoint zeros (k : nat) : string :=
  match k with
  | O => ""
  | S k' => "0" ++ zeros k'
  end.

(** [s] without the zeros it ends with. *)
Fixpoint strip_trailing (s : string) : string :=
  match s with
  | EmptyString => ""
  | String c rest =>
      let r := strip_trailing rest in
      if (c =? "0")%char && String.eqb r "" then "" else String c r
  end.

(** The significant digits of a positive integer written as [d]: its
    first digit is not a zero and stays. *)
Definition significant (d : string) : string :=
  match d with
  | EmptyString => "0"
  | String c rest => String c (strip_trailing rest)
  end.

(** The position of the decimal point: the value is
    [0.s * 10 ^ point]. *)
Definition point (n : number) : Z :=
  Z.of_nat (String.length (digits_of (Z.abs (num_digits n))))
  - Z.of_nat (num_scale n).

Definition exponent_text (x : Z) : string :=
  (if x <? 0 then "-" else "+") ++ digits_of (Z.abs x).

(** The text of a positive number of significant digits [s] and
    decimal point at [n]. *)
Definition positional (s : string) (n : Z) : string :=
  let k := Z.of_nat (String.length s) in
  if (k <=? n) && (n <=? 21) then s ++ zeros (Z.to_nat (n - k))
  else if (0 <? n) && (n <=? 21) then
    substring 0 (Z.to_nat n) s ++ "."
      ++ substring (Z.to_nat n) (Z.to_nat (k - n)) s
  else if (-6 <? n) && (n <=? 0) then "0." ++ zeros (Z.to_nat (- n)) ++ s
  else
    match s with
    | EmptyString => ""
    | String d EmptyString => String d ("e" ++ exponent_text (n - 1))
    | String d rest => String d ("." ++ rest ++ "e" ++ exponent_text (n - 1))
    end.

Definition number_to_string (n : number) : string :=
  if num_digits n =? 0 then "0"
  else
    (if num_digits n <? 0 then "-" else "")
      ++ positional (significant (digits_of (Z.abs (num_digits n)))) (point n).


(** ** Values

    The values the program handles: the primitives and plain objects.
    An object is its list of own properties in insertion order, each
    key once (the order is the one JSON.stringify prints for keys that
    are not array indices).  Arrays and functions are outside the
    model. *)

Inductive value : Type :=
| VUndef
| VNull
| VBool (b : bool)
| VNum (n : number)
| VStr (s : string)
| VObj (props : list (string * value)).

Definition obj : Type := list (string * value).

Definition truthy (v : value) : bool :=
  match v with
  | VUndef | VNull => false
  | VBool b => b
  | VNum n => number_truthy n
  | VStr s => negb (String.eqb s "")
  | VObj _ => true
  end.

(** ToString, as string concatenation and template literals apply it. *)
Definition to_string (v : value) : string :=
  match v with
  | VUndef => "undefined"
  | VNull => "null"
  | VBool true => "true"
  | VBool false => "false"
  | VNum n => number_to_string n
  | VStr s => s
  | VObj _ => "[object Object]"
  end.

(** [a || b] *)
Definition or_else (a b : value) : value := if truthy a then a else b.


(** ** Objects *)

Fixpoint obj_get (k : string) (o : obj) : value :=
  match o with
  | [] => VUndef
  | (k', v) :: rest => if String.eqb k' k then v else obj_get k rest
  end.

(** [o[k] = v]: an existing key keeps its place, a new one goes last. *)
Fixpoint obj_set (k : string) (v : value) (o : obj) : obj :=
  match o with
  | [] => [(k, v)]
  | (k', v') :: rest =>
      if String.eqb k' k then (k, v) :: rest else (k', v') :: obj_set k v rest
  end.

(** ** JSON.stringify *)

Definition dquote : ascii := "034"%char.
Definition backslash : ascii := "092"%char.

Definition hex_digit (n : nat) : ascii :=
  match n with
  | 0 => "0" | 1 => "1" | 2 => "2" | 3 => "3" | 4 => "4" | 5 => "5"
  | 6 => "6" | 7 => "7" | 8 => "8" | 9 => "9" | 10 => "a" | 11 => "b"
  | 12 => "c" | 13 => "d" | 14 => "e" | _ => "f"
  end%char%nat.

Definition json_escape (c : ascii) : string :=
  let n := nat_of_ascii c in
  if (c =? dquote)%char then String backslash (String dquote "")
  else if (c =? backslash)%char then String backslash (String backslash "")
  else if (n =? 8)%nat then String backslash "b"
  else if (n =? 9)%nat then String backslash "t"
  else if (n =? 10)%nat then String backslash "n"
  else if (n =? 12)%nat then String backslash "f"
  else if (n =? 13)%nat then String backslash "r"
  else if (n <? 32)%nat then
    String backslash
      ("u00" ++ String (hex_digit (n / 16)%nat) (String (hex_digit (n mod 16)%nat) ""))
  else String c "".

Fixpoint json_escape_all (s : string) : string :=
  match s with
  | EmptyString => ""
  | String c rest => json_escape c ++ json_escape_all rest
  end.

Definition json_quote (s : string) : string :=
  String dquote (json_escape_all s ++ String dquote "").

(** The text of a value, [None] where JSON.stringify answers
    [undefined].  A property whose value is [undefined] is left out. *)
Fixpoint stringify (v : value) : option string :=
  match v with
  | VUndef => None
  | VNull => Some "null"
  | VBool true => Some "true"
  | VBool false => Some "false"
  | VNum n => Some (number_to_string n)
  | VStr s => Some (json_quote s)
  | VObj props =>
      let members :=
        (fix members (ps : list (string * value)) (first : bool) : string :=
           match ps with
           | [] => ""
           | (k, x) :: rest =>
               match stringify x with
               | None => members rest first
               | Some sx =>
                   (if first then "" else ",")
                     ++ json_quote k ++ ":" ++ sx ++ members rest false
               end
           end) in
      Some ("{" ++ members props true ++ "}")
  end.

Definition JSON_stringify (v : value) : value :=
  match stringify v with
  | None => VUndef
  | Some s => VStr s
  end.

(** ** lodash's [compact] and Array.prototype.join *)

Definition compact (parts : list value) : list value := filter truthy parts.

Fixpoint join (sep : string) (parts : list value) : string :=
  match parts with
  | [] => ""
  | [v] => to_string v
  | v :: rest => to_string v ++ sep ++ join sep rest
  end.

(** ** Exceptions and the transport's answers

    The transport (axios) answers a request with a response, or
    rejects with an error that may carry a response ([e.response]). *)

Record response : Type := Response {
  status : Z;
  statusText : string;
  data : value;
  request : value
}.

Record rejection : Type := Rejection {
  reason : string;
  attached : option response
}.

Inductive transport_result : Type :=
| Resolved (r : response)
| Rejected (e : rejection).

(** What a call can raise: a TypeError of the language, the Error
    [_http] builds (message, [err.code], [err.meta]), or the
    transport's own rejection, passed on as it came. *)
Inductive exn : Type :=
| TypeError (msg : string)
| StatusError (msg : string) (code : Z) (meta : value)
| TransportError (e : rejection).

Inductive outcome (A : Type) : Type :=
| Return (a : A)
| Throw (e : exn).

Arguments Return {A} a.
Arguments Throw {A} e.

(** [v.k] for a [v] that is neither [undefined] nor [null]: a plain
    object answers its own property, a primitive answers [undefined]
    (none of the names this program reads is defined by a built-in
    prototype). *)
Definition prop (v : value) (k : string) : value :=
  match v with
  | VObj o => obj_get k o
  | _ => VUndef
  end.

(** [v.k]: reading a property of [undefined] or [null] raises. *)
Definition get_member (v : value) (k : string) : outcome value :=
  match v with
  | VUndef =>
      Throw (TypeError ("Cannot read properties of undefined (reading '" ++ k ++ "')"))
  | VNull =>
      Throw (TypeError ("Cannot read properties of null (reading '" ++ k ++ "')"))
  | _ => Return (prop v k)
  end.

(** [v.k = x] in strict mode (class bodies and 'use strict' files):
    only an object takes the property.  The object is mutated in
    place; the model returns the object after the write. *)
Definition set_member (v : value) (k : string) (x : value) : outcome value :=
  match v with
  | VObj o => Return (VObj (obj_set k x o))
  | VUndef => Throw (TypeError ("Cannot set properties of undefined (setting '" ++ k ++ "')"))
  | VNull => Throw (TypeError ("Cannot set properties of null (setting '" ++ k ++ "')"))
  | _ => Throw (TypeError ("Cannot create property '" ++ k ++ "' on " ++ to_string v))
  end.

(** ** Effects

    A call runs against a [world]: the trace, oldest first, of the
    request configurations handed to the transport and the lines
    handed to the logger. *)

Inductive event : Type :=
| Sent (config : value)
| Logged (level line : string).

Definition world : Type := list event.

Definition start : world := [].

(** The requests of a trace, and its log lines. *)
Fixpoint sent (w : world) : list value :=
  match w with
  | [] => []
  | Sent config :: rest => config :: sent rest
  | Logged _ _ :: rest => sent rest
  end.

Fixpoint logged (w : world) : list (string * string) :=
  match w with
  | [] => []
  | Sent _ :: rest => logged rest
  | Logged level line :: rest => (level, line) :: logged rest
  end.

Definition M (A : Type) : Type := world -> outcome A * world.

Definition ret {A} (a : A) : M A := fun w => (Return a, w).

Definition raise {A} (e : exn) : M A := fun w => (Throw e, w).

Definition bind {A B} (m : M A) (k : A -> M B) : M B :=
  fun w =>
    match m w with
    | (Return a, w') => k a w'
    | (Throw e, w') => (Throw e, w')
    end.

Definition lift {A} (o : outcome A) : M A := fun w => (o, w).

(** [try { m } catch (e) { h e }] *)
Definition try_catch {A} (m : M A) (h : exn -> M A) : M A :=
  fun w =>
    match m w with
    | (Return a, w') => (Return a, w')
    | (Throw e, w') => h e w'
    end.

Declare Scope js_scope.
Delimit Scope js_scope with js.

Notation "x <- m ;; k" := (bind m (fun x => k))
  (at level 100, m at next level, right associativity) : js_scope.
Notation "m ;;; k" := (bind m (fun _ => k))
  (at level 100, right associativity) : js_scope.

(** Handing [config] to the transport: the request is recorded, a
    rejection is raised. *)
Definition dispatch (transport : value -> transport_result) (config : value)
  : M response :=
  fun w =>
    let w' := (w ++ [Sent config])%list in
    match transport config with
    | Resolved r => (Return r, w')
    | Rejected e => (Throw (TransportError e), w')
    end.

(** The logger is an object with one method per severity it knows;
    the methods take the line and return.  [methods] names them. *)
Record Logger : Type := { methods : list string }.

Definition has_method (lg : Logger) (name : string) : bool :=
  existsb (String.eqb name) (methods lg).

(** [logger[level](line)] *)
Definition emit (lg : Logger) (level : value) (line : string) : M unit :=
  fun w =>
    let name := to_string level in
    if has_method lg name
    then (Return tt, (w ++ [Logged name line])%list)
    else (Throw (TypeError ("this.logger[logLevel] is not a function")), w).

(** [config.params.k = x]: the object under [config.params] takes the
    property.  It is the same object the caller passed (mutation in
    place), so [config] sees the write. *)
Definition set_param (config : value) (k : string) (x : value) : M value :=
  (params <- lift (get_member config "params") ;;
   params' <- lift (set_member params k x) ;;
   lift (set_member config "params" params'))%js.

(** [mine ? mine : (theirs ? theirs : null)], the expression both
    classes use for [app_id] and [app_key]. *)
Definition credential (mine theirs : value) : value :=
  if truthy mine then mine else if truthy theirs then theirs else VNull.

End Js.

Import Js.
Local Open Scope js_scope.

(** * The class [ClearAg] (src/lib/clearag.js): the strict policy *)

Module ClearAg.

Record instance : Type := {
  appId : value;
  appKey : value;
  debug : value;
  host : value
}.

Definition constructor (options : value) : outcome instance :=
  match get_member options "appId" with
  | Throw e => Throw e
  | Return _ =>
      Return {|
        appId := or_else (or_else (prop options "appId") (prop options "app_id")) (VStr "");
        appKey := or_else (or_else (prop options "appKey") (prop options "app_key")) (VStr "");
        debug := or_else (prop options "debug") (VBool false);
        host := or_else (prop options "host") (VStr "https://ag.us.clearapis.com")
      |}
  end.

(** [endpoint.substring(0, 1)] needs a string; [this.host + endpoint]
    is then a string concatenation whatever [this.host] holds. *)
Definition _buildApiUrl (this : instance) (endpoint : value) : outcome value :=
  match endpoint with
  | VStr e =>
      let e := if negb (String.eqb (substring 0 1 e) "/") then "/" ++ e else e in
      Return (VStr (to_string (host this) ++ e))
  | VUndef | VNull =>
      Throw (TypeError "Cannot read properties of undefined (reading 'substring')")
  | _ => Throw (TypeError "endpoint.substring is not a function")
  end.

Definition _isResponseSuccessful (r : response) : bool :=
  (status r >=? 200) && (status r <? 300).

Section Pipeline.

Variable transport : value -> transport_result.

Definition _http (this : instance) (config : value) : M value :=
  let config := or_else config (VObj []) in
  config <- set_param config "app_id"
              (credential (appId this) (prop config "appId")) ;;
  config <- set_param config "app_key"
              (credential (appKey this) (prop config "appKey")) ;;
  response <- dispatch transport config ;;
  if negb (_isResponseSuccessful response) then
    raise (StatusError
             (number_to_string (of_int (status response)) ++ " - "
                ++ to_string (prop config "url") ++ " failed")
             (status response) (data response))
  else ret (data response).

Definition _httpGet (this : instance) (endpoint params appId appKey : value)
  : M value :=
  url <- lift (_buildApiUrl this endpoint) ;;
  _http this
    (VObj [("method", VStr "get");
           ("url", url);
           ("params", or_else params (VObj []));
           ("appId", appId);
           ("appKey", appKey)]).

Definition dailyHistoricalAirTemperature (this : instance)
  (start end_ latitude longitude location unitcode : value) : M value :=
  let endpoint := VStr "/v1.2/historical/daily/air_temp" in
  let config :=
    VObj [("start", start);
          ("end", end_);
          ("location",
            if truthy location then location
            else VStr (to_string latitude ++ ", " ++ to_string longitude));
          ("unitcode", unitcode)] in
  _httpGet this endpoint config VUndef VUndef.

End Pipeline.

End ClearAg.

(** * The class [ClearAgApi] (second source file): the tolerant policy *)

Module ClearAgApi.

Record instance : Type := {
  name : value;
  appId : value;
  appKey : value;
  host : value;
  logger : option Logger;
  loggerConfig : value;
  logLevel : value;
  responseType : value;
  timeout : value
}.

Definition constructor (options : value) (logger : option Logger)
  : outcome instance :=
  match get_member options "appId" with
  | Throw e => Throw e
  | Return _ =>
      Return {|
        name := VStr "clearag-api";
        appId := or_else (or_else (prop options "appId") (prop options "app_id")) (VStr "");
        appKey := or_else (or_else (prop options "appKey") (prop options "app_key")) (VStr "");
        host := or_else (prop options "host") (VStr "https://ag.us.clearapis.com");
        logger := logger;
        loggerConfig := prop options "loggerConfig";
        logLevel := or_else (prop options "logLevel") (VStr "verbose");
        responseType := or_else (prop options "responseType") (VStr "json");
        timeout := or_else (prop options "timeout") (VNum (of_int (1000 * 60 * 3)))
      |}
  end.

Definition _buildApiUrl (this : instance) (endpoint : value) : outcome value :=
  match endpoint with
  | VStr e =>
      let e := if negb (String.eqb (substring 0 1 e) "/") then "/" ++ e else e in
      Return (VStr (to_string (host this) ++ e))
  | VUndef | VNull =>
      Throw (TypeError "Cannot read properties of undefined (reading 'substring')")
  | _ => Throw (TypeError "endpoint.substring is not a function")
  end.

(** [this._buildScheme()]: the class declares no method of that name,
    so the call raises. *)
Definition call_buildScheme (this : instance) : M value :=
  raise (TypeError "this._buildScheme is not a function").

(** [logLevel = this.logLevel]: the default applies when the argument
    is [undefined]. *)
Definition _writeLog (this : instance) (endpoint axiosConfig : value)
  (response : response) (logLevel : value) : M unit :=
  let logLevel :=
    match logLevel with VUndef => ClearAgApi.logLevel this | _ => logLevel end in
  match logger this with
  | None => ret tt
  | Some lg =>
      method <- lift (get_member axiosConfig "method") ;;
      let logParts := [VStr ("[" ++ to_string (name this) ++ "]"); method] in
      flag <- lift (get_member (loggerConfig this) "url") ;;
      part <- (if truthy flag then call_buildScheme this else ret VNull) ;;
      let logParts := (logParts ++ [part])%list in
      flag <- lift (get_member (loggerConfig this) "params") ;;
      part <- (if truthy flag
               then lift (get_member (request response) "path")
               else ret endpoint) ;;
      let logParts := (logParts ++ [part])%list in
      flag <- lift (get_member (loggerConfig this) "data") ;;
      part <- (if truthy flag
               then body <- lift (get_member axiosConfig "data") ;;
                    ret (JSON_stringify body)
               else ret VNull) ;;
      let logParts := (logParts ++ [part])%list in
      let logParts :=
        (logParts ++ [VStr (number_to_string (of_int (status response))
                             ++ " " ++ statusText response)])%list in
      flag <- lift (get_member (loggerConfig this) "response") ;;
      let part := if truthy flag then JSON_stringify (data response) else VNull in
      let logParts := (logParts ++ [part])%list in
      let log := join " " (compact logParts) in
      emit lg logLevel log
  end.

Section Pipeline.

Variable transport : value -> transport_result.

(** The [return null] of the catch block leaves the function: the
    guarded part answers [None] for it, and the code after the
    [try] runs only on [Some response]. *)
Definition _request (this : instance) (endpoint config : value) : M value :=
  let config := or_else config (VObj []) in
  url <- lift (_buildApiUrl this endpoint) ;;
  config <- lift (set_member config "url" url) ;;
  config <- lift (set_member config "responseType" (responseType this)) ;;
  config <- set_param config "app_id"
              (credential (appId this) (prop config "appId")) ;;
  config <- set_param config "app_key"
              (credential (appKey this) (prop config "appKey")) ;;
  config <- (if truthy (timeout this)
             then lift (set_member config "timeout" (timeout this))
             else ret config) ;;
  answer <- try_catch
              (response <- dispatch transport config ;; ret (Some response))
              (fun e =>
                 match e with
                 | TransportError {| attached := Some r |} =>
                     _writeLog this endpoint config r (VStr "error") ;;;
                     if status r =? 404 then ret None else raise e
                 | _ => raise e
                 end) ;;
  match answer with
  | None => ret VNull
  | Some response =>
      _writeLog this endpoint config response VUndef ;;;
      ret (data response)
  end.

Definition _get (this : instance) (endpoint params appId appKey : value)
  : M value :=
  _request this endpoint
    (VObj [("method", VStr "GET");
           ("params", or_else params (VObj []));
           ("appId", appId);
           ("appKey", appKey)]).

Definition dailyHistoricalAirTemperature (this : instance)
  (start end_ latitude longitude location unitcode : value) : M value :=
  let endpoint := VStr "/v1.2/historical/daily/air_temp" in
  let config :=
    VObj [("start", start);
          ("end", end_);
          ("location",
            if truthy location then location
            else VStr (to_string latitude ++ ", " ++ to_string longitude));
          ("unitcode", unitcode)] in
  _get this endpoint config VUndef VUndef.

End Pipeline.

End ClearAgApi.

(** * Properties *)

(** ** Objects: reading after writing *)

Section ObjectFacts.

Lemma obj_get_set_same (k : string) (v : value) (o : obj) :
  obj_get k (obj_set k v o) = v.
Proof.
  induction o as [|[k' v'] rest IH]; simpl.
  - now rewrite String.eqb_refl.
  - destruct (String.eqb k' k) eqn:E; simpl.
    + now rewrite String.eqb_refl.
    + now rewrite E.
Qed.

Lemma obj_get_set_other (k k' : string) (v : value) (o : obj) :
  k <> k' -> obj_get k (obj_set k' v o) = obj_get k o.
Proof.
  intros Hne.
  induction o as [|[k0 v0] rest IH]; simpl.
  - destruct (String.eqb k' k) eqn:E; [|reflexivity].
    apply String.eqb_eq in E. congruence.
  - destruct (String.eqb k0 k') eqn:E; simpl.
    + apply String.eqb_eq in E. subst k0.
      destruct (String.eqb k' k) eqn:E'; [|reflexivity].
      apply String.eqb_eq in E'. congruence.
    + now rewrite IH.
Qed.

End ObjectFacts.

Create Rewrite HintDb obj.
#[local] Hint Rewrite obj_get_set_same : obj.
#[local] Hint Rewrite obj_get_set_other using discriminate : obj.

(** ** The credential expression *)

Lemma credential_cases (mine theirs : value) :
  (truthy mine = true -> credential mine theirs = mine) /\
  (truthy mine = false -> truthy theirs = true ->
   credential mine theirs = theirs) /\
  (truthy mine = false -> truthy theirs = false ->
   credential mine theirs = VNull).
Proof.
  unfold credential.
  repeat split; intros; repeat match goal with H : truthy _ = _ |- _ => rewrite H end;
    reflexivity.
Qed.

(** ** What the pipeline hands to the transport *)

Section Outbound.

(** The configuration [ClearAg._http] dispatches for a config object
    [fields] whose [params] is the object [params]. *)
Definition strict_outbound (this : ClearAg.instance) (fields params : obj) : obj :=
  let p1 := obj_set "app_id"
              (credential (ClearAg.appId this) (obj_get "appId" fields)) params in
  let p2 := obj_set "app_key"
              (credential (ClearAg.appKey this) (obj_get "appKey" fields)) p1 in
  obj_set "params" (VObj p2) (obj_set "params" (VObj p1) fields).

(** The configuration [ClearAgApi._request] dispatches. *)
Definition tolerant_outbound (this : ClearAgApi.instance) (url : value)
  (fields params : obj) : obj :=
  let c1 := obj_set "responseType" (ClearAgApi.responseType this)
              (obj_set "url" url fields) in
  let p1 := obj_set "app_id"
              (credential (ClearAgApi.appId this) (obj_get "appId" fields)) params in
  let p2 := obj_set "app_key"
              (credential (ClearAgApi.appKey this) (obj_get "appKey" fields)) p1 in
  let c3 := obj_set "params" (VObj p2) (obj_set "params" (VObj p1) c1) in
  if truthy (ClearAgApi.timeout this)
  then obj_set "timeout" (ClearAgApi.timeout this) c3
  else c3.

Variable transport : value -> transport_result.

Lemma strict_http_run (this : ClearAg.instance) (fields params : obj) (w : world) :
  obj_get "params" fields = VObj params ->
  ClearAg._http transport this (VObj fields) w =
  (response <- dispatch transport (VObj (strict_outbound this fields params)) ;;
   if negb (ClearAg._isResponseSuccessful response) then
     raise (StatusError
              (number_to_string (of_int (status response)) ++ " - "
                 ++ to_string (obj_get "url" fields) ++ " failed")
              (status response) (data response))
   else ret (data response)) w.
Proof.
  intros Hp.
  unfold ClearAg._http, strict_outbound, set_param, bind, lift, or_else.
  simpl. rewrite Hp. simpl.
  autorewrite with obj. simpl.
  autorewrite with obj. reflexivity.
Qed.

Definition url_of (host : value) (e : string) : value :=
  VStr (to_string host
          ++ (if negb (String.eqb (substring 0 1 e) "/") then "/" ++ e else e)).

(** The part of [ClearAgApi._request] from the transport call on. *)
Definition tolerant_exchange (this : ClearAgApi.instance)
  (endpoint config : value) : M value :=
  answer <- try_catch
              (response <- dispatch transport config ;; ret (Some response))
              (fun e =>
                 match e with
                 | TransportError {| attached := Some r |} =>
                     ClearAgApi._writeLog this endpoint config r (VStr "error") ;;;
                     if status r =? 404 then ret None else raise e
                 | _ => raise e
                 end) ;;
  match answer with
  | None => ret VNull
  | Some response =>
      ClearAgApi._writeLog this endpoint config response VUndef ;;;
      ret (data response)
  end.

Lemma tolerant_request_run (this : ClearAgApi.instance) (e : string)
  (fields params : obj) (w : world) :
  obj_get "params" fields = VObj params ->
  ClearAgApi._request transport this (VStr e) (VObj fields) w =
  tolerant_exchange this (VStr e)
    (VObj (tolerant_outbound this (url_of (ClearAgApi.host this) e) fields params)) w.
Proof.
  intros Hp.
  unfold ClearAgApi._request, tolerant_exchange, tolerant_outbound, url_of,
    set_param, or_else, bind, lift.
  simpl. autorewrite with obj. rewrite Hp. simpl. autorewrite with obj.
  destruct (truthy (ClearAgApi.timeout this)); reflexivity.
Qed.

End Outbound.

(** ** The log line *)

Section LogLine.

Import ClearAgApi.

Definition nullish (v : value) : bool :=
  match v with
  | VUndef | VNull => true
  | _ => false
  end.

(** The level [_writeLog] logs at: the argument, or [this.logLevel]
    when the argument is [undefined]. *)
Definition level_of (this : instance) (logLevel : value) : value :=
  match logLevel with VUndef => ClearAgApi.logLevel this | _ => logLevel end.

(** When [_writeLog] gets as far as the sink and the sink takes the
    line: every object it reads a property of is there, the [url] flag
    is off (the method behind it does not exist), and the sink has the
    method of the level. *)
Definition log_buildable (this : instance) (lg : Logger)
  (axiosConfig : value) (r : response) (logLevel : value) : bool :=
  negb (nullish axiosConfig)
  && negb (nullish (loggerConfig this))
  && negb (truthy (prop (loggerConfig this) "url"))
  && (negb (truthy (prop (loggerConfig this) "params"))
      || negb (nullish (request r)))
  && has_method lg (to_string (level_of this logLevel)).

(** The segments of the line, before [compact]. *)
Definition log_segments (this : instance) (endpoint axiosConfig : value)
  (r : response) : list value :=
  let flags := loggerConfig this in
  [ VStr ("[" ++ to_string (name this) ++ "]");
    prop axiosConfig "method";
    VNull;
    if truthy (prop flags "params") then prop (request r) "path" else endpoint;
    if truthy (prop flags "data")
    then JSON_stringify (prop axiosConfig "data") else VNull;
    VStr (number_to_string (of_int (status r)) ++ " " ++ statusText r);
    if truthy (prop flags "response") then JSON_stringify (data r) else VNull ].

Definition log_line (this : instance) (endpoint axiosConfig : value)
  (r : response) : string :=
  join " " (compact (log_segments this endpoint axiosConfig r)).

Lemma writeLog_no_sink (this : instance) (endpoint axiosConfig : value)
  (r : response) (logLevel : value) (w : world) :
  logger this = None ->
  _writeLog this endpoint axiosConfig r logLevel w = (Return tt, w).
Proof.
  intros H. unfold _writeLog. now rewrite H.
Qed.

Lemma get_member_present (v : value) (k : string) :
  nullish v = false -> get_member v k = Return (prop v k).
Proof. destruct v; simpl; congruence. Qed.

Lemma get_member_nullish (v : value) (k : string) :
  nullish v = true -> exists msg, get_member v k = Throw (TypeError msg).
Proof. destruct v; simpl; try discriminate; eauto. Qed.

Lemma writeLog_built (this : instance) (lg : Logger)
  (endpoint axiosConfig : value) (r : response) (logLevel : value) (w : world) :
  logger this = Some lg ->
  log_buildable this lg axiosConfig r logLevel = true ->
  _writeLog this endpoint axiosConfig r logLevel w =
  (Return tt,
   (w ++ [Logged (to_string (level_of this logLevel))
            (log_line this endpoint axiosConfig r)])%list).
Proof.
  intros Hlg Hb.
  unfold log_buildable in Hb.
  repeat (apply andb_prop in Hb; destruct Hb as [Hb ?]).
  repeat match goal with
         | H : negb _ = true |- _ => apply negb_true_iff in H
         end.
  unfold _writeLog, log_line, log_segments, emit. rewrite Hlg.
  fold (level_of this logLevel).
  unfold bind, lift, ret, call_buildScheme.
  rewrite !(get_member_present axiosConfig) by assumption.
  rewrite !(get_member_present (loggerConfig this)) by assumption.
  match goal with H : truthy (prop _ "url") = false |- _ => rewrite H end.
  match goal with H : has_method _ _ = true |- _ => rewrite H end.
  destruct (truthy (prop (loggerConfig this) "params")) eqn:Hp.
  - match goal with H : _ || _ = true |- _ => simpl in H; apply negb_true_iff in H;
      rewrite (get_member_present _ _ H) end.
    destruct (truthy (prop (loggerConfig this) "data")); reflexivity.
  - destruct (truthy (prop (loggerConfig this) "data")); reflexivity.
Qed.

(** Otherwise [_writeLog] raises a TypeError and the sink gets nothing. *)
Lemma writeLog_fault (this : instance) (lg : Logger)
  (endpoint axiosConfig : value) (r : response) (logLevel : value) (w : world) :
  logger this = Some lg ->
  log_buildable this lg axiosConfig r logLevel = false ->
  exists msg,
    _writeLog this endpoint axiosConfig r logLevel w = (Throw (TypeError msg), w).
Proof.
  intros Hlg Hb.
  unfold _writeLog, emit. rewrite Hlg.
  fold (level_of this logLevel).
  unfold bind, lift, ret, call_buildScheme, raise.
  unfold log_buildable in Hb.
  destruct (nullish axiosConfig) eqn:Ha.
  { destruct (get_member_nullish axiosConfig "method" Ha) as [m ->]. eauto. }
  rewrite !(get_member_present axiosConfig) by assumption.
  destruct (nullish (loggerConfig this)) eqn:Hc.
  { destruct (get_member_nullish (loggerConfig this) "url" Hc) as [m ->]. eauto. }
  rewrite !(get_member_present (loggerConfig this)) by assumption.
  destruct (truthy (prop (loggerConfig this) "url")) eqn:Hu; [eauto|].
  simpl in Hb.
  destruct (truthy (prop (loggerConfig this) "params")) eqn:Hp; simpl in Hb.
  - destruct (nullish (request r)) eqn:Hr; simpl in Hb.
    + destruct (get_member_nullish (request r) "path" Hr) as [m ->]. eauto.
    + rewrite (get_member_present _ _ Hr), Hb.
      destruct (truthy (prop (loggerConfig this) "data")); eauto.
  - rewrite Hb.
    destruct (truthy (prop (loggerConfig this) "data")); eauto.
Qed.

End LogLine.

(** ** The three answers of the transport, under the tolerant policy *)

Section Exchange.

Import ClearAgApi.

Variable transport : value -> transport_result.
Variable this : instance.
Variables endpoint config : value.
Variable w : world.

Lemma exchange_resolved (r : response) :
  transport config = Resolved r ->
  tolerant_exchange transport this endpoint config w =
  match _writeLog this endpoint config r VUndef (w ++ [Sent config])%list with
  | (Return _, w') => (Return (data r), w')
  | (Throw x, w') => (Throw x, w')
  end.
Proof.
  intros Ht.
  unfold tolerant_exchange, try_catch, dispatch, bind, ret. rewrite Ht.
  destruct (_writeLog _ _ _ _ _ _) as [[[]|x] w']; reflexivity.
Qed.

Lemma exchange_rejected_attached (e : rejection) (r : response) :
  transport config = Rejected e ->
  attached e = Some r ->
  tolerant_exchange transport this endpoint config w =
  match _writeLog this endpoint config r (VStr "error") (w ++ [Sent config])%list with
  | (Return _, w') =>
      if status r =? 404 then (Return VNull, w') else (Throw (TransportError e), w')
  | (Throw x, w') => (Throw x, w')
  end.
Proof.
  intros Ht Ha.
  unfold tolerant_exchange, try_catch, dispatch, bind, ret, raise. rewrite Ht.
  destruct e as [msg att]. simpl in Ha. subst att.
  destruct (_writeLog _ _ _ _ _ _) as [[[]|x] w']; [|reflexivity].
  destruct (status r =? 404); reflexivity.
Qed.

Lemma exchange_rejected_bare (e : rejection) :
  transport config = Rejected e ->
  attached e = None ->
  tolerant_exchange transport this endpoint config w =
  (Throw (TransportError e), (w ++ [Sent config])%list).
Proof.
  intros Ht Ha.
  unfold tolerant_exchange, try_catch, dispatch, bind, ret, raise. rewrite Ht.
  destruct e as [msg att]. simpl in Ha. subst att. reflexivity.
Qed.

End Exchange.

(** ** Traces *)

Section Traces.

Import ClearAgApi.

Lemma sent_app (w1 w2 : world) :
  sent (w1 ++ w2)%list = (sent w1 ++ sent w2)%list.
Proof.
  induction w1 as [|[c|l s] rest IH]; simpl; [reflexivity| |assumption].
  now rewrite IH.
Qed.

(** [_writeLog] leaves the trace as it is or adds one line. *)
Lemma writeLog_trace (this : instance) (endpoint axiosConfig : value)
  (r : response) (logLevel : value) (w : world) :
  snd (_writeLog this endpoint axiosConfig r logLevel w) = w \/
  exists level line,
    snd (_writeLog this endpoint axiosConfig r logLevel w)
    = (w ++ [Logged level line])%list.
Proof.
  destruct (logger this) as [lg|] eqn:Hlg.
  - destruct (log_buildable this lg axiosConfig r logLevel) eqn:Hb.
    + right. rewrite (writeLog_built _ lg) by assumption. simpl. eauto.
    + left. destruct (writeLog_fault this lg endpoint axiosConfig r logLevel w Hlg Hb)
        as [msg ->]. reflexivity.
  - left. now rewrite writeLog_no_sink.
Qed.

(** A dispatched call: one request, then at most one line. *)
Lemma exchange_trace (transport : value -> transport_result) (this : instance)
  (endpoint config : value) (w : world) :
  exists tail,
    snd (tolerant_exchange transport this endpoint config w)
    = (w ++ Sent config :: tail)%list
    /\ (tail = [] \/ exists level line, tail = [Logged level line]).
Proof.
  destruct (transport config) as [r|e] eqn:Ht.
  - rewrite (exchange_resolved _ _ _ _ _ r Ht).
    destruct (writeLog_trace this endpoint config r VUndef (w ++ [Sent config])%list)
      as [H|(l & s & H)];
      destruct (_writeLog _ _ _ _ _ _) as [[[]|x] w']; simpl in *; subst w';
      rewrite <- ?app_assoc; simpl; eauto 6.
  - destruct (attached e) as [r|] eqn:Ha.
    + rewrite (exchange_rejected_attached _ _ _ _ _ e r Ht Ha).
      destruct (writeLog_trace this endpoint config r (VStr "error")
                  (w ++ [Sent config])%list) as [H|(l & s & H)];
        destruct (_writeLog _ _ _ _ _ _) as [[[]|x] w']; simpl in *; subst w';
        try destruct (status r =? 404);
        rewrite <- ?app_assoc; simpl; eauto 6.
    + rewrite (exchange_rejected_bare _ _ _ _ _ e Ht Ha). simpl. eauto.
Qed.

End Traces.

(** ** Calls that never reach the transport *)

Section Faults.

Variable transport : value -> transport_result.

(** [ClearAg._http] either has an object under [config.params] or
    raises a TypeError before it dispatches anything. *)
Lemma strict_http_cases (this : ClearAg.instance) (config : value) (w : world) :
  (exists fields params,
     config = VObj fields /\ obj_get "params" fields = VObj params) \/
  (exists msg,
     ClearAg._http transport this config w = (Throw (TypeError msg), w)).
Proof.
  destruct config as [| |b|n|s|fields];
    try (right; unfold ClearAg._http, set_param, bind, lift, or_else;
         simpl; try destruct b; try destruct (number_truthy n);
         try destruct (negb (String.eqb s "")); simpl; eauto; fail).
  destruct (obj_get "params" fields) as [| |b|n|s|params] eqn:Hp;
    try (right; unfold ClearAg._http, set_param, bind, lift, or_else;
         simpl; rewrite Hp; simpl; eauto; fail).
  left. eauto.
Qed.

(** [ClearAgApi._request] either has a string endpoint and an object
    under [config.params], or raises a TypeError before it dispatches
    anything. *)
Lemma tolerant_request_cases (this : ClearAgApi.instance)
  (endpoint config : value) (w : world) :
  (exists e fields params,
     endpoint = VStr e /\ config = VObj fields
     /\ obj_get "params" fields = VObj params) \/
  (exists msg,
     ClearAgApi._request transport this endpoint config w
     = (Throw (TypeError msg), w)).
Proof.
  destruct endpoint as [| |b|n|e|o];
    try (right; unfold ClearAgApi._request, bind, lift; simpl; eauto; fail).
  destruct config as [| |b|n|s|fields];
    try (right; unfold ClearAgApi._request, set_param, bind, lift, or_else;
         simpl; try destruct b; try destruct (number_truthy n);
         try destruct (negb (String.eqb s "")); simpl;
         autorewrite with obj; simpl; eauto; fail).
  destruct (obj_get "params" fields) as [| |b|n|s|params] eqn:Hp;
    try (right; unfold ClearAgApi._request, set_param, bind, lift, or_else;
         simpl; autorewrite with obj; rewrite Hp; simpl; eauto; fail).
  left. eauto 6.
Qed.

Lemma strict_http_trace (this : ClearAg.instance) (fields params : obj)
  (w : world) :
  obj_get "params" fields = VObj params ->
  snd (ClearAg._http transport this (VObj fields) w)
  = (w ++ [Sent (VObj (strict_outbound this fields params))])%list.
Proof.
  intros Hp. rewrite (strict_http_run _ _ _ _ _ Hp).
  unfold bind, dispatch, raise, ret.
  destruct (transport _) as [r|e]; [|reflexivity].
  destruct (negb _); reflexivity.
Qed.

Lemma not_extended {A} (l : list A) (x : A) : l <> (l ++ [x])%list.
Proof.
  intros H. apply (f_equal (@List.length A)) in H.
  rewrite length_app in H. simpl in H. lia.
Qed.

(** A request that [_http] dispatched is the prepared configuration. *)
Lemma strict_dispatched (this : ClearAg.instance) (config cfg : value)
  (w : world) :
  sent (snd (ClearAg._http transport this config w)) = (sent w ++ [cfg])%list ->
  exists fields params,
    config = VObj fields /\ obj_get "params" fields = VObj params
    /\ cfg = VObj (strict_outbound this fields params).
Proof.
  intros H.
  destruct (strict_http_cases this config w)
    as [(fields & params & -> & Hp)|(msg & E)].
  - rewrite (strict_http_trace _ _ _ _ Hp), sent_app in H. simpl in H.
    apply app_inv_head in H. injection H as <-. eauto.
  - rewrite E in H. simpl in H. now apply not_extended in H.
Qed.

Lemma tolerant_dispatched (this : ClearAgApi.instance)
  (endpoint config cfg : value) (w : world) :
  sent (snd (ClearAgApi._request transport this endpoint config w))
  = (sent w ++ [cfg])%list ->
  exists e fields params,
    endpoint = VStr e /\ config = VObj fields
    /\ obj_get "params" fields = VObj params
    /\ cfg = VObj (tolerant_outbound this (url_of (ClearAgApi.host this) e)
                     fields params).
Proof.
  intros H.
  destruct (tolerant_request_cases this endpoint config w)
    as [(e & fields & params & -> & -> & Hp)|(msg & E)].
  - rewrite (tolerant_request_run _ _ _ _ _ _ Hp) in H.
    destruct (exchange_trace transport this (VStr e)
                (VObj (tolerant_outbound this (url_of (ClearAgApi.host this) e)
                         fields params)) w) as (tail & -> & Ht) in H.
    rewrite sent_app in H. apply app_inv_head in H.
    destruct Ht as [->|(l & s & ->)]; simpl in H; injection H as <-; eauto 8.
  - rewrite E in H. simpl in H. now apply not_extended in H.
Qed.

End Faults.

(** * The claims *)

(** ** URL builder *)

(** C6: for every host string and endpoint path, in both classes,
    [_buildApiUrl] returns (it never raises on a string) host + "/" +
    path when the path does not start with "/", and host + path, with
    no second separator, when it does. *)
Theorem buildApiUrl_host_and_path_C6 (h p : string) :
  (forall this : ClearAg.instance,
     ClearAg.host this = VStr h ->
     (prefix "/" p = false ->
      ClearAg._buildApiUrl this (VStr p) = Return (VStr (h ++ "/" ++ p))) /\
     (prefix "/" p = true ->
      ClearAg._buildApiUrl this (VStr p) = Return (VStr (h ++ p)))) /\
  (forall this : ClearAgApi.instance,
     ClearAgApi.host this = VStr h ->
     (prefix "/" p = false ->
      ClearAgApi._buildApiUrl this (VStr p) = Return (VStr (h ++ "/" ++ p))) /\
     (prefix "/" p = true ->
      ClearAgApi._buildApiUrl this (VStr p) = Return (VStr (h ++ p)))).
Proof.
  assert (Hsub : String.eqb (substring 0 1 p) "/" = prefix "/" p).
  { destruct p as [|c rest]; [reflexivity|].
    assert (Hs : substring 0 1 (String c rest) = String c "")
      by (destruct rest; reflexivity).
    rewrite Hs. cbn [prefix String.eqb].
    destruct (Ascii.ascii_dec "/" c) as [<-|Hne].
    - rewrite Ascii.eqb_refl. now destruct rest.
    - apply not_eq_sym, Ascii.eqb_neq in Hne. now rewrite Hne. }
  split; intros this Hh; split; intros Hp;
    unfold ClearAg._buildApiUrl, ClearAgApi._buildApiUrl;
    rewrite Hsub, Hp, Hh; reflexivity.
Qed.

Definition production : ClearAg.instance :=
  {| ClearAg.appId := VStr "id"; ClearAg.appKey := VStr "key";
     ClearAg.debug := VBool false;
     ClearAg.host := VStr "https://ag.us.clearapis.com" |}.

Definition production_api : ClearAgApi.instance :=
  {| ClearAgApi.name := VStr "clearag-api";
     ClearAgApi.appId := VStr "id"; ClearAgApi.appKey := VStr "key";
     ClearAgApi.host := VStr "https://ag.us.clearapis.com";
     ClearAgApi.logger := None;
     ClearAgApi.loggerConfig := VUndef;
     ClearAgApi.logLevel := VStr "verbose";
     ClearAgApi.responseType := VStr "json";
     ClearAgApi.timeout := VNum (of_int 180000) |}.

Lemma buildApiUrl_host_and_path_C6_witness :
  ClearAg._buildApiUrl production (VStr "v1.2/soil")
  = Return (VStr "https://ag.us.clearapis.com/v1.2/soil")
  /\ ClearAgApi._buildApiUrl production_api (VStr "/v1.2/soil")
     = Return (VStr "https://ag.us.clearapis.com/v1.2/soil").
Proof.
  split.
  - apply (proj1 (buildApiUrl_host_and_path_C6
                    "https://ag.us.clearapis.com" "v1.2/soil") production);
      reflexivity.
  - apply (proj2 (buildApiUrl_host_and_path_C6
                    "https://ag.us.clearapis.com" "/v1.2/soil") production_api);
      reflexivity.
Defined.

(** ** Credential injection *)

(** The precedence the two keys follow: the instance's value when it
    is non-empty (truthy), else the per-call override when that is
    non-empty, else [null]. *)
Definition credential_rule (mine theirs v : value) : Prop :=
  (truthy mine = true -> v = mine) /\
  (truthy mine = false -> truthy theirs = true -> v = theirs) /\
  (truthy mine = false -> truthy theirs = false -> v = VNull).

Lemma outbound_params_strict (this : ClearAg.instance) (fields params : obj) :
  prop (prop (VObj (strict_outbound this fields params)) "params") "app_id"
  = credential (ClearAg.appId this) (obj_get "appId" fields)
  /\ prop (prop (VObj (strict_outbound this fields params)) "params") "app_key"
     = credential (ClearAg.appKey this) (obj_get "appKey" fields).
Proof.
  unfold strict_outbound. simpl. autorewrite with obj. simpl.
  autorewrite with obj. auto.
Qed.

Lemma outbound_params_tolerant (this : ClearAgApi.instance) (url : value)
  (fields params : obj) :
  prop (prop (VObj (tolerant_outbound this url fields params)) "params") "app_id"
  = credential (ClearAgApi.appId this) (obj_get "appId" fields)
  /\ prop (prop (VObj (tolerant_outbound this url fields params)) "params") "app_key"
     = credential (ClearAgApi.appKey this) (obj_get "appKey" fields).
Proof.
  unfold tolerant_outbound.
  destruct (truthy (ClearAgApi.timeout this)); simpl; autorewrite with obj;
    simpl; autorewrite with obj; auto.
Qed.

(** C1: in both classes, for a call whose config holds the parameter
    mapping [params] (whatever it holds, the two reserved keys
    included), exactly one request is dispatched, and in it
    [params.app_id] and [params.app_key] are the instance's value when
    non-empty, else the per-call override, else [null]. *)
Theorem credentials_overwrite_C1 (transport : value -> transport_result)
  (e : string) (fields params : obj) (w : world) :
  obj_get "params" fields = VObj params ->
  (forall this : ClearAgApi.instance,
     exists cfg,
       sent (snd (ClearAgApi._request transport this (VStr e) (VObj fields) w))
       = (sent w ++ [cfg])%list
       /\ credential_rule (ClearAgApi.appId this) (obj_get "appId" fields)
            (prop (prop cfg "params") "app_id")
       /\ credential_rule (ClearAgApi.appKey this) (obj_get "appKey" fields)
            (prop (prop cfg "params") "app_key")) /\
  (forall this : ClearAg.instance,
     exists cfg,
       sent (snd (ClearAg._http transport this (VObj fields) w))
       = (sent w ++ [cfg])%list
       /\ credential_rule (ClearAg.appId this) (obj_get "appId" fields)
            (prop (prop cfg "params") "app_id")
       /\ credential_rule (ClearAg.appKey this) (obj_get "appKey" fields)
            (prop (prop cfg "params") "app_key")).
Proof.
  intros Hp. split; intros this.
  - exists (VObj (tolerant_outbound this (url_of (ClearAgApi.host this) e)
                    fields params)).
    rewrite (tolerant_request_run _ _ _ _ _ _ Hp).
    destruct (exchange_trace transport this (VStr e)
                (VObj (tolerant_outbound this (url_of (ClearAgApi.host this) e)
                         fields params)) w) as (tail & Hw & Ht).
    rewrite Hw, sent_app.
    destruct (outbound_params_tolerant this (url_of (ClearAgApi.host this) e)
                fields params) as [-> ->].
    repeat split; try apply credential_cases.
    destruct Ht as [->|(l & s & ->)]; reflexivity.
  - exists (VObj (strict_outbound this fields params)).
    rewrite (strict_http_trace _ _ _ _ _ Hp), sent_app.
    destruct (outbound_params_strict this fields params) as [-> ->].
    repeat split; apply credential_cases.
Qed.

(** A caller that put its own values under the two keys, and named an
    override, against an instance with an id and no key. *)
Definition spoofing_config : obj :=
  [("method", VStr "GET");
   ("params", VObj [("app_id", VStr "forged"); ("app_key", VStr "forged");
                    ("location", VStr "40.71, -74.01")]);
   ("appId", VStr "other-id");
   ("appKey", VStr "other-key")].

Definition keyless_api : ClearAgApi.instance :=
  {| ClearAgApi.name := VStr "clearag-api";
     ClearAgApi.appId := VStr "id"; ClearAgApi.appKey := VStr "";
     ClearAgApi.host := VStr "https://ag.us.clearapis.com";
     ClearAgApi.logger := None;
     ClearAgApi.loggerConfig := VUndef;
     ClearAgApi.logLevel := VStr "verbose";
     ClearAgApi.responseType := VStr "json";
     ClearAgApi.timeout := VNum (of_int 180000) |}.

Definition ok_transport (_ : value) : transport_result :=
  Resolved (Response 200 "OK" (VObj [("ok", VBool true)])
              (VObj [("path", VStr "/v1.2/historical/daily/air_temp?app_id=id")])).

Lemma credentials_overwrite_C1_witness :
  exists cfg,
    sent (snd (ClearAgApi._request ok_transport keyless_api
                 (VStr "/v1.2/soil") (VObj spoofing_config) start)) = [cfg]
    /\ credential_rule (VStr "id") (VStr "other-id")
         (prop (prop cfg "params") "app_id")
    /\ credential_rule (VStr "") (VStr "other-key")
         (prop (prop cfg "params") "app_key").
Proof.
  apply (proj1 (credentials_overwrite_C1 ok_transport "/v1.2/soil"
                  spoofing_config
                  [("app_id", VStr "forged"); ("app_key", VStr "forged");
                   ("location", VStr "40.71, -74.01")]
                  start eq_refl) keyless_api).
Defined.

Example spoofed_keys_replaced :
  sent (snd (ClearAgApi._request ok_transport keyless_api
               (VStr "/v1.2/soil") (VObj spoofing_config) start))
  = [VObj [("method", VStr "GET");
           ("params", VObj [("app_id", VStr "id"); ("app_key", VStr "other-key");
                            ("location", VStr "40.71, -74.01")]);
           ("appId", VStr "other-id");
           ("appKey", VStr "other-key");
           ("url", VStr "https://ag.us.clearapis.com/v1.2/soil");
           ("responseType", VStr "json");
           ("timeout", VNum (of_int 180000))]].
Proof. reflexivity. Qed.

(** ** The strict policy *)

(** C3: [ClearAg._http], for the request it dispatched and the
    response the transport gave it: a status in [200, 300) returns the
    response's [data], nothing else of the response; any other status
    raises the error whose [code] is the status and whose [meta] is the
    response's [data]. *)
Theorem strict_policy_C3 (transport : value -> transport_result)
  (this : ClearAg.instance) (config cfg : value) (r : response) (w : world) :
  sent (snd (ClearAg._http transport this config w)) = (sent w ++ [cfg])%list ->
  transport cfg = Resolved r ->
  (200 <= status r < 300 ->
   fst (ClearAg._http transport this config w) = Return (data r)) /\
  (~ 200 <= status r < 300 ->
   exists msg,
     fst (ClearAg._http transport this config w)
     = Throw (StatusError msg (status r) (data r))).
Proof.
  intros Hs Ht.
  destruct (strict_dispatched transport this config cfg w Hs)
    as (fields & params & -> & Hp & ->).
  rewrite (strict_http_run _ _ _ _ _ Hp).
  unfold bind, dispatch, ClearAg._isResponseSuccessful, raise, ret.
  rewrite Ht. split; intros Hr.
  - replace (status r >=? 200) with true by (symmetry; apply Z.geb_le; lia).
    replace (status r <? 300) with true by (symmetry; apply Z.ltb_lt; lia).
    reflexivity.
  - destruct (status r >=? 200) eqn:E1; destruct (status r <? 300) eqn:E2;
      simpl; eauto.
    apply Z.geb_le in E1. apply Z.ltb_lt in E2. lia.
Qed.

Definition answers (code : Z) (text : string) (_ : value) : transport_result :=
  Resolved (Response code text (VObj [("detail", VStr text)]) VUndef).

Definition plain_config : value :=
  VObj [("method", VStr "get");
        ("url", VStr "https://ag.us.clearapis.com/v1.2/soil");
        ("params", VObj [])].

Lemma strict_policy_C3_witness :
  fst (ClearAg._http (answers 299 "Odd") production plain_config start)
  = Return (VObj [("detail", VStr "Odd")])
  /\ exists msg,
       fst (ClearAg._http (answers 300 "Multiple Choices") production
              plain_config start)
       = Throw (StatusError msg 300 (VObj [("detail", VStr "Multiple Choices")])).
Proof.
  split.
  - apply (proj1 (strict_policy_C3 (answers 299 "Odd") production plain_config
                    _ _ start eq_refl eq_refl)).
    simpl. lia.
  - apply (proj2 (strict_policy_C3 (answers 300 "Multiple Choices") production
                    plain_config _ _ start eq_refl eq_refl)).
    simpl. lia.
Defined.

Example strict_policy_boundaries :
  fst (ClearAg._http (answers 200 "OK") production plain_config start)
  = Return (VObj [("detail", VStr "OK")])
  /\ fst (ClearAg._http (answers 199 "Low") production plain_config start)
     = Throw (StatusError "199 - https://ag.us.clearapis.com/v1.2/soil failed"
                199 (VObj [("detail", VStr "Low")])).
Proof. split; reflexivity. Qed.

(** ** The tolerant policy *)

(** X1: the policy of the catch block, for a call whose log step does
    not raise: there is no sink, or the line can be built.  A rejection
    with no response attached never reaches the log step. *)
Theorem tolerant_policy_when_log_completes
  (transport : value -> transport_result) (this : ClearAgApi.instance)
  (endpoint config cfg : value) (rej : rejection) (w : world) :
  sent (snd (ClearAgApi._request transport this endpoint config w))
  = (sent w ++ [cfg])%list ->
  transport cfg = Rejected rej ->
  (attached rej = None ->
   fst (ClearAgApi._request transport this endpoint config w)
   = Throw (TransportError rej)) /\
  (forall r,
     attached rej = Some r ->
     ClearAgApi.logger this = None \/
     (exists lg, ClearAgApi.logger this = Some lg
                 /\ log_buildable this lg cfg r (VStr "error") = true) ->
     (status r = 404 ->
      fst (ClearAgApi._request transport this endpoint config w) = Return VNull) /\
     (status r <> 404 ->
      fst (ClearAgApi._request transport this endpoint config w)
      = Throw (TransportError rej))).
Proof.
  intros Hs Ht.
  destruct (tolerant_dispatched transport this endpoint config cfg w Hs)
    as (e & fields & params & -> & -> & Hp & ->).
  rewrite (tolerant_request_run _ _ _ _ _ _ Hp).
  split.
  - intros Ha. now rewrite (exchange_rejected_bare _ _ _ _ _ rej Ht Ha).
  - intros r Ha Hlog.
    rewrite (exchange_rejected_attached _ _ _ _ _ rej r Ht Ha).
    assert (Hw : fst (ClearAgApi._writeLog this (VStr e)
                        (VObj (tolerant_outbound this
                                 (url_of (ClearAgApi.host this) e) fields params))
                        r (VStr "error")
                        (w ++ [Sent (VObj (tolerant_outbound this
                                 (url_of (ClearAgApi.host this) e) fields params))])%list)
                 = Return tt).
    { destruct Hlog as [Hn|(lg & Hlg & Hb)].
      - now rewrite writeLog_no_sink.
      - now rewrite (writeLog_built _ lg). }
    destruct (ClearAgApi._writeLog _ _ _ _ _ _) as [[[]|x] w'];
      [|discriminate].
    split; intros H4.
    + rewrite H4. reflexivity.
    + apply Z.eqb_neq in H4. now rewrite H4.
Qed.

Definition rejects_with (code : Z) (text : string) (_ : value)
  : transport_result :=
  Rejected
    (Rejection "Request failed"
       (Some (Response code text (VObj [("error", VStr text)])
                (VObj [("path", VStr "/v1.2/historical/daily/air_temp")])))).

Definition unreachable (_ : value) : transport_result :=
  Rejected (Rejection "connect ECONNREFUSED" None).

Lemma tolerant_policy_when_log_completes_witness :
  fst (ClearAgApi._request (rejects_with 404 "Not Found") production_api
         (VStr "/v1.2/soil") plain_config start) = Return VNull
  /\ fst (ClearAgApi._request unreachable production_api
            (VStr "/v1.2/soil") plain_config start)
     = Throw (TransportError (Rejection "connect ECONNREFUSED" None)).
Proof.
  split.
  - apply (proj2 (tolerant_policy_when_log_completes
                    (rejects_with 404 "Not Found") production_api
                    (VStr "/v1.2/soil") plain_config _ _ start eq_refl eq_refl)
             _ eq_refl (or_introl eq_refl)).
    reflexivity.
  - apply (proj1 (tolerant_policy_when_log_completes
                    unreachable production_api
                    (VStr "/v1.2/soil") plain_config _ _ start eq_refl eq_refl)).
    reflexivity.
Defined.

(** A sink with the levels of a winston logger. *)
Definition winston : Logger :=
  {| methods := ["error"; "warn"; "info"; "http"; "verbose"; "debug"; "silly"] |}.

(** [new ClearAgApi({ appId: 'id', appKey: 'key' }, winston)]: a sink
    and no [loggerConfig]. *)
Definition sink_without_flags : ClearAgApi.instance :=
  {| ClearAgApi.name := VStr "clearag-api";
     ClearAgApi.appId := VStr "id"; ClearAgApi.appKey := VStr "key";
     ClearAgApi.host := VStr "https://ag.us.clearapis.com";
     ClearAgApi.logger := Some winston;
     ClearAgApi.loggerConfig := VUndef;
     ClearAgApi.logLevel := VStr "verbose";
     ClearAgApi.responseType := VStr "json";
     ClearAgApi.timeout := VNum (of_int 180000) |}.

Example sink_without_flags_constructed :
  ClearAgApi.constructor (VObj [("appId", VStr "id"); ("appKey", VStr "key")])
    (Some winston)
  = Return sink_without_flags.
Proof. reflexivity. Qed.

(** The same with [loggerConfig: flags]. *)
Definition sink_with (flags : value) : ClearAgApi.instance :=
  {| ClearAgApi.name := VStr "clearag-api";
     ClearAgApi.appId := VStr "id"; ClearAgApi.appKey := VStr "key";
     ClearAgApi.host := VStr "https://ag.us.clearapis.com";
     ClearAgApi.logger := Some winston;
     ClearAgApi.loggerConfig := flags;
     ClearAgApi.logLevel := VStr "verbose";
     ClearAgApi.responseType := VStr "json";
     ClearAgApi.timeout := VNum (of_int 180000) |}.

Definition air_temp : value := VStr "/v1.2/historical/daily/air_temp".

(** C2, at the input where the code departs from it: with a sink and
    no [loggerConfig], a rejection carrying a 404 response raises the
    TypeError of the log step instead of returning [null], and one
    carrying a 500 response raises that TypeError instead of the
    transport's error. *)
Theorem tolerant_policy_lost_to_log_fault_C2 :
  fst (ClearAgApi._get (rejects_with 404 "Not Found") sink_without_flags
         air_temp VUndef VUndef VUndef start)
  = Throw (TypeError "Cannot read properties of undefined (reading 'url')")
  /\ fst (ClearAgApi._get (rejects_with 500 "Server Error") sink_without_flags
            air_temp VUndef VUndef VUndef start)
     = Throw (TypeError "Cannot read properties of undefined (reading 'url')").
Proof. split; reflexivity. Qed.

(** ** The logging step *)

(** C5, at the inputs where the code departs from it: with a sink
    configured and a transport that answers 200, the call raises the
    TypeError of the log step instead of returning the payload when
    [loggerConfig] is absent, when the [params] flag is on and the
    response carries no request object, and when the [url] flag is on
    (the class has no [_buildScheme]). *)
Theorem log_fault_replaces_result_C5 :
  fst (ClearAgApi._get (answers 200 "OK") sink_without_flags
         air_temp VUndef VUndef VUndef start)
  = Throw (TypeError "Cannot read properties of undefined (reading 'url')")
  /\ fst (ClearAgApi._get (answers 200 "OK")
            (sink_with (VObj [("params", VBool true)]))
            air_temp VUndef VUndef VUndef start)
     = Throw (TypeError "Cannot read properties of undefined (reading 'path')")
  /\ fst (ClearAgApi._get (answers 200 "OK")
            (sink_with (VObj [("url", VBool true)]))
            air_temp VUndef VUndef VUndef start)
     = Throw (TypeError "this._buildScheme is not a function").
Proof. repeat split; reflexivity. Qed.

(** X2: with a sink configured, the log step returns exactly when the
    line can be built, and raises otherwise. *)
Theorem writeLog_raises_iff (this : ClearAgApi.instance) (lg : Logger)
  (endpoint axiosConfig : value) (r : response) (logLevel : value) (w : world) :
  ClearAgApi.logger this = Some lg ->
  (fst (ClearAgApi._writeLog this endpoint axiosConfig r logLevel w) = Return tt
   <-> log_buildable this lg axiosConfig r logLevel = true).
Proof.
  intros Hlg. split.
  - intros H. destruct (log_buildable this lg axiosConfig r logLevel) eqn:Hb;
      [reflexivity|].
    destruct (writeLog_fault this lg endpoint axiosConfig r logLevel w Hlg Hb)
      as [msg E].
    rewrite E in H. discriminate.
  - intros Hb. now rewrite (writeLog_built _ lg).
Qed.

Lemma writeLog_raises_iff_witness :
  fst (ClearAgApi._writeLog (sink_with (VObj [("response", VBool true)]))
         air_temp plain_config
         (Response 200 "OK" (VBool true) VUndef) VUndef start)
  = Return tt.
Proof.
  apply (proj2 (writeLog_raises_iff
                  (sink_with (VObj [("response", VBool true)])) winston
                  air_temp plain_config
                  (Response 200 "OK" (VBool true) VUndef) VUndef start eq_refl)).
  reflexivity.
Defined.

(** A call that reaches the transport under a sink whose flags are all
    off, against a transport that refuses the connection. *)
Lemma log_emissions_C4_counterexample :
  ClearAgApi.logger (sink_with (VObj [])) = Some winston
  /\ fst (ClearAgApi._get unreachable (sink_with (VObj []))
            air_temp VUndef VUndef VUndef start)
     = Throw (TransportError (Rejection "connect ECONNREFUSED" None))
  /\ logged (snd (ClearAgApi._get unreachable (sink_with (VObj []))
                    air_temp VUndef VUndef VUndef start))
     = [].
Proof. repeat split; reflexivity. Qed.

(** C4, amended: a call that dispatches the request [cfg] adds to the
    trace, after the request, no line when no sink is configured, no
    line when the transport rejects with no response attached, and
    exactly one line when a sink is configured, the transport's answer
    carries a response and the line can be built: at the configured
    level for a resolved call, at "error" for a rejected one. *)
Theorem log_emissions_C4 (transport : value -> transport_result)
  (this : ClearAgApi.instance) (endpoint config cfg : value) (w : world) :
  sent (snd (ClearAgApi._request transport this endpoint config w))
  = (sent w ++ [cfg])%list ->
  (ClearAgApi.logger this = None ->
   snd (ClearAgApi._request transport this endpoint config w)
   = (w ++ [Sent cfg])%list) /\
  (forall rej,
     transport cfg = Rejected rej -> attached rej = None ->
     snd (ClearAgApi._request transport this endpoint config w)
     = (w ++ [Sent cfg])%list) /\
  (forall lg r,
     ClearAgApi.logger this = Some lg ->
     transport cfg = Resolved r ->
     log_buildable this lg cfg r VUndef = true ->
     snd (ClearAgApi._request transport this endpoint config w)
     = (w ++ [Sent cfg;
              Logged (to_string (ClearAgApi.logLevel this))
                (log_line this endpoint cfg r)])%list) /\
  (forall lg rej r,
     ClearAgApi.logger this = Some lg ->
     transport cfg = Rejected rej -> attached rej = Some r ->
     log_buildable this lg cfg r (VStr "error") = true ->
     snd (ClearAgApi._request transport this endpoint config w)
     = (w ++ [Sent cfg; Logged "error" (log_line this endpoint cfg r)])%list).
Proof.
  intros Hs.
  destruct (tolerant_dispatched transport this endpoint config cfg w Hs)
    as (e & fields & params & -> & -> & Hp & ->).
  rewrite (tolerant_request_run _ _ _ _ _ _ Hp).
  set (out := VObj (tolerant_outbound this (url_of (ClearAgApi.host this) e)
                      fields params)).
  repeat split.
  - intros Hn. destruct (transport out) as [r|rej] eqn:Ht.
    + rewrite (exchange_resolved _ _ _ _ _ r Ht), writeLog_no_sink by assumption.
      reflexivity.
    + destruct (attached rej) as [r|] eqn:Ha.
      * rewrite (exchange_rejected_attached _ _ _ _ _ rej r Ht Ha),
          writeLog_no_sink by assumption.
        now destruct (status r =? 404).
      * now rewrite (exchange_rejected_bare _ _ _ _ _ rej Ht Ha).
  - intros rej Ht Ha. now rewrite (exchange_rejected_bare _ _ _ _ _ rej Ht Ha).
  - intros lg r Hlg Ht Hb.
    rewrite (exchange_resolved _ _ _ _ _ r Ht), (writeLog_built _ lg)
      by assumption.
    simpl. now rewrite <- app_assoc.
  - intros lg rej r Hlg Ht Ha Hb.
    rewrite (exchange_rejected_attached _ _ _ _ _ rej r Ht Ha),
      (writeLog_built _ lg) by assumption.
    destruct (status r =? 404); simpl; now rewrite <- app_assoc.
Qed.

Lemma log_emissions_C4_witness :
  snd (ClearAgApi._request (rejects_with 404 "Not Found") (sink_with (VObj []))
         air_temp plain_config start)
  = [Sent (VObj [("method", VStr "get");
                 ("url", VStr "https://ag.us.clearapis.com/v1.2/historical/daily/air_temp");
                 ("params", VObj [("app_id", VStr "id"); ("app_key", VStr "key")]);
                 ("responseType", VStr "json");
                 ("timeout", VNum (of_int 180000))]);
     Logged "error"
       "[clearag-api] get /v1.2/historical/daily/air_temp 404 Not Found"].
Proof.
  apply (proj2 (proj2 (proj2
           (log_emissions_C4 (rejects_with 404 "Not Found") (sink_with (VObj []))
              air_temp plain_config _ start eq_refl)))
           winston _ _ eq_refl eq_refl eq_refl eq_refl).
Defined.

(** ** The fields of the log line *)

Section Serialized.

Lemma append_empty (s1 s2 : string) : s1 ++ s2 = "" -> s1 = "" /\ s2 = "".
Proof. destruct s1; simpl; [auto|discriminate]. Qed.

Lemma digits_of_nonempty (z : Z) : digits_of z <> "".
Proof.
  unfold digits_of.
  destruct (N.to_uint (Z.to_N z)); simpl; discriminate.
Qed.

Lemma append_nonempty (s1 s2 : string) : s2 <> "" -> s1 ++ s2 <> "".
Proof. intros H E. now apply append_empty in E as [_ E]. Qed.





End Serialized.





(** ** The endpoint method *)

(** The arguments of the scenario: 40.71 is 4071 / 10^2. *)
Definition start_2020 : value := VNum (of_int 1577836800).
Definition end_2020 : value := VNum (of_int 1577923200).
Definition latitude_nyc : value := VNum (Num 4071 2).
Definition longitude_nyc : value := VNum (Num (-7401) 2).


Section Dispatching.

Variable transport : value -> transport_result.

(** The GET helpers reach the transport when [params] is an object or
    falsy, with the method and the URL they were asked for. *)
Lemma get_dispatches
  (this : ClearAgApi.instance) (e : string) (params appId appKey : value)
  (w : world) :
  truthy params = false \/ (exists o, params = VObj o) ->
  exists cfg,
    sent (snd (ClearAgApi._get transport this (VStr e) params appId appKey w))
    = (sent w ++ [cfg])%list
    /\ prop cfg "method" = VStr "GET"
    /\ prop cfg "url" = url_of (ClearAgApi.host this) e.
Proof.
  intros Hparams.
  assert (Ho : exists o, or_else params (VObj []) = VObj o).
  { unfold or_else. destruct Hparams as [->|[o ->]]; simpl; eauto. }
  destruct Ho as [o Ho].
  unfold ClearAgApi._get. rewrite Ho.
  erewrite tolerant_request_run by reflexivity.
  match goal with
  | |- context [tolerant_exchange ?t ?i ?ep ?c ?w0] =>
      destruct (exchange_trace t i ep c w0) as (tail & Hw & Ht); exists c
  end.
  rewrite Hw, sent_app.
  split; [destruct Ht as [->|(l & s & ->)]; reflexivity|].
  unfold tolerant_outbound.
  destruct (truthy (ClearAgApi.timeout this)); simpl; autorewrite with obj;
    simpl; auto.
Qed.

Lemma httpGet_dispatches
  (this : ClearAg.instance) (e : string) (params appId appKey : value)
  (w : world) :
  truthy params = false \/ (exists o, params = VObj o) ->
  exists cfg,
    sent (snd (ClearAg._httpGet transport this (VStr e) params appId appKey w))
    = (sent w ++ [cfg])%list
    /\ prop cfg "method" = VStr "get"
    /\ prop cfg "url" = url_of (ClearAg.host this) e.
Proof.
  intros Hparams.
  assert (Ho : exists o, or_else params (VObj []) = VObj o).
  { unfold or_else. destruct Hparams as [->|[o ->]]; simpl; eauto. }
  destruct Ho as [o Ho].
  unfold ClearAg._httpGet, bind, lift. cbn [ClearAg._buildApiUrl].
  rewrite Ho.
  erewrite strict_http_trace by reflexivity.
  eexists. rewrite sent_app. split; [reflexivity|].
  unfold strict_outbound. simpl. auto.
Qed.

(** The request a GET helper sends for the parameter object [o]. *)
Lemma get_sends (this : ClearAgApi.instance) (e : string)
  (params appId appKey : value) (o : obj) (w : world) :
  or_else params (VObj []) = VObj o ->
  sent (snd (ClearAgApi._get transport this (VStr e) params appId appKey w))
  = (sent w
       ++ [VObj (tolerant_outbound this (url_of (ClearAgApi.host this) e)
                   [("method", VStr "GET"); ("params", VObj o);
                    ("appId", appId); ("appKey", appKey)] o)])%list.
Proof.
  intros Ho. unfold ClearAgApi._get. rewrite Ho.
  erewrite tolerant_request_run by reflexivity.
  match goal with
  | |- context [tolerant_exchange ?t ?i ?ep ?c ?w0] =>
      destruct (exchange_trace t i ep c w0) as (tail & Hw & Ht)
  end.
  rewrite Hw, sent_app.
  destruct Ht as [->|(l & s & ->)]; reflexivity.
Qed.

Lemma httpGet_sends (this : ClearAg.instance) (e : string)
  (params appId appKey : value) (o : obj) (w : world) :
  or_else params (VObj []) = VObj o ->
  sent (snd (ClearAg._httpGet transport this (VStr e) params appId appKey w))
  = (sent w
       ++ [VObj (strict_outbound this
                   [("method", VStr "get"); ("url", url_of (ClearAg.host this) e);
                    ("params", VObj o); ("appId", appId); ("appKey", appKey)] o)])%list.
Proof.
  intros Ho. unfold ClearAg._httpGet, bind, lift. cbn [ClearAg._buildApiUrl].
  rewrite Ho.
  erewrite strict_http_trace by reflexivity.
  now rewrite sent_app.
Qed.

(** Inside [params] the pipeline writes the two reserved keys only. *)
Lemma tolerant_outbound_param (this : ClearAgApi.instance) (url : value)
  (fields params : obj) (k : string) :
  k <> "app_id" -> k <> "app_key" ->
  prop (prop (VObj (tolerant_outbound this url fields params)) "params") k
  = obj_get k params.
Proof.
  intros H1 H2. unfold tolerant_outbound.
  destruct (truthy (ClearAgApi.timeout this)); simpl; autorewrite with obj;
    simpl; now rewrite !obj_get_set_other by assumption.
Qed.

Lemma strict_outbound_param (this : ClearAg.instance) (fields params : obj)
  (k : string) :
  k <> "app_id" -> k <> "app_key" ->
  prop (prop (VObj (strict_outbound this fields params)) "params") k
  = obj_get k params.
Proof.
  intros H1 H2. unfold strict_outbound. simpl. autorewrite with obj.
  simpl. now rewrite !obj_get_set_other by assumption.
Qed.

(** What [ClearAgApi.dailyHistoricalAirTemperature] hands to [_get],
    and what the transport then receives. *)
Lemma air_temperature_passes (this : ClearAgApi.instance)
  (start end_ latitude longitude location unitcode : value) (w : world) :
  let place :=
    if truthy location then location
    else VStr (to_string latitude ++ ", " ++ to_string longitude) in
  ClearAgApi.dailyHistoricalAirTemperature transport this
    start end_ latitude longitude location unitcode w
  = ClearAgApi._get transport this air_temp
      (VObj [("start", start); ("end", end_); ("location", place);
             ("unitcode", unitcode)])
      VUndef VUndef w
  /\ exists cfg,
       sent (snd (ClearAgApi.dailyHistoricalAirTemperature transport this
                    start end_ latitude longitude location unitcode w))
       = (sent w ++ [cfg])%list
       /\ prop cfg "method" = VStr "GET"
       /\ prop cfg "url"
          = VStr (to_string (ClearAgApi.host this)
                    ++ "/v1.2/historical/daily/air_temp")
       /\ prop (prop cfg "params") "start" = start
       /\ prop (prop cfg "params") "end" = end_
       /\ prop (prop cfg "params") "location" = place
       /\ prop (prop cfg "params") "unitcode" = unitcode.
Proof.
  intros place. split; [reflexivity|].
  unfold ClearAgApi.dailyHistoricalAirTemperature. fold place.
  eexists. split; [apply get_sends; reflexivity|].
  rewrite !tolerant_outbound_param by discriminate.
  split; [|split]; [| |repeat split].
  - unfold tolerant_outbound.
    destruct (truthy (ClearAgApi.timeout this)); simpl; autorewrite with obj;
      reflexivity.
  - unfold tolerant_outbound.
    destruct (truthy (ClearAgApi.timeout this)); simpl; autorewrite with obj;
      reflexivity.
Qed.

Lemma strict_air_temperature_passes (this : ClearAg.instance)
  (start end_ latitude longitude location unitcode : value) (w : world) :
  let place :=
    if truthy location then location
    else VStr (to_string latitude ++ ", " ++ to_string longitude) in
  ClearAg.dailyHistoricalAirTemperature transport this
    start end_ latitude longitude location unitcode w
  = ClearAg._httpGet transport this air_temp
      (VObj [("start", start); ("end", end_); ("location", place);
             ("unitcode", unitcode)])
      VUndef VUndef w
  /\ exists cfg,
       sent (snd (ClearAg.dailyHistoricalAirTemperature transport this
                    start end_ latitude longitude location unitcode w))
       = (sent w ++ [cfg])%list
       /\ prop cfg "method" = VStr "get"
       /\ prop cfg "url"
          = VStr (to_string (ClearAg.host this)
                    ++ "/v1.2/historical/daily/air_temp")
       /\ prop (prop cfg "params") "start" = start
       /\ prop (prop cfg "params") "end" = end_
       /\ prop (prop cfg "params") "location" = place
       /\ prop (prop cfg "params") "unitcode" = unitcode.
Proof.
  intros place. split; [reflexivity|].
  unfold ClearAg.dailyHistoricalAirTemperature. fold place.
  eexists. split; [apply httpGet_sends; reflexivity|].
  rewrite !strict_outbound_param by discriminate.
  split; [|split]; [| |repeat split];
    unfold strict_outbound; simpl; autorewrite with obj; reflexivity.
Qed.

End Dispatching.







(** ** The precondition of the injection *)

(** C10: in both classes a config with no [params] makes the pipeline
    core raise a TypeError with nothing dispatched (the trace is the
    one the call started from); a call through the GET helper whose
    [params] argument is of its documented type, an object or left
    out (any falsy value is replaced by an empty object), does reach
    the transport; and so does every call of the public endpoint
    method, whatever its arguments. *)
Theorem params_precondition_C10 (transport : value -> transport_result) :
  (forall (this : ClearAgApi.instance) (endpoint config : value) (w : world),
     prop (or_else config (VObj [])) "params" = VUndef ->
     exists msg,
       ClearAgApi._request transport this endpoint config w
       = (Throw (TypeError msg), w)) /\
  (forall (this : ClearAg.instance) (config : value) (w : world),
     prop (or_else config (VObj [])) "params" = VUndef ->
     exists msg,
       ClearAg._http transport this config w = (Throw (TypeError msg), w)) /\
  (forall (this : ClearAgApi.instance) (e : string)
          (params appId appKey : value) (w : world),
     truthy params = false \/ (exists o, params = VObj o) ->
     exists cfg,
       sent (snd (ClearAgApi._get transport this (VStr e) params appId appKey w))
       = (sent w ++ [cfg])%list) /\
  (forall (this : ClearAg.instance) (e : string)
          (params appId appKey : value) (w : world),
     truthy params = false \/ (exists o, params = VObj o) ->
     exists cfg,
       sent (snd (ClearAg._httpGet transport this (VStr e) params appId appKey w))
       = (sent w ++ [cfg])%list) /\
  (forall (this : ClearAgApi.instance)
          (start end_ latitude longitude location unitcode : value) (w : world),
     exists cfg,
       sent (snd (ClearAgApi.dailyHistoricalAirTemperature transport this
                    start end_ latitude longitude location unitcode w))
       = (sent w ++ [cfg])%list) /\
  (forall (this : ClearAg.instance)
          (start end_ latitude longitude location unitcode : value) (w : world),
     exists cfg,
       sent (snd (ClearAg.dailyHistoricalAirTemperature transport this
                    start end_ latitude longitude location unitcode w))
       = (sent w ++ [cfg])%list).
Proof.
  repeat split.
  - intros this endpoint config w Hu.
    destruct (tolerant_request_cases transport this endpoint config w)
      as [(e & fields & params & _ & -> & Hp)|H]; [|exact H].
    simpl in Hu. congruence.
  - intros this config w Hu.
    destruct (strict_http_cases transport this config w)
      as [(fields & params & -> & Hp)|H]; [|exact H].
    simpl in Hu. congruence.
  - intros this e params appId appKey w Hp.
    destruct (get_dispatches transport this e params appId appKey w Hp)
      as (cfg & H & _). eauto.
  - intros this e params appId appKey w Hp.
    destruct (httpGet_dispatches transport this e params appId appKey w Hp)
      as (cfg & H & _). eauto.
  - intros this start0 end_ latitude longitude location unitcode w.
    unfold ClearAgApi.dailyHistoricalAirTemperature.
    match goal with
    | |- context [ClearAgApi._get _ _ (VStr ?e) ?bag ?a ?k _] =>
        destruct (get_dispatches transport this e bag a k w) as (cfg & H & _);
          [right; eauto|eauto]
    end.
  - intros this start0 end_ latitude longitude location unitcode w.
    unfold ClearAg.dailyHistoricalAirTemperature.
    match goal with
    | |- context [ClearAg._httpGet _ _ (VStr ?e) ?bag ?a ?k _] =>
        destruct (httpGet_dispatches transport this e bag a k w) as (cfg & H & _);
          [right; eauto|eauto]
    end.
Qed.

Lemma params_precondition_C10_witness :
  (exists msg,
     ClearAgApi._request ok_transport production_api air_temp
       (VObj [("method", VStr "GET")]) start
     = (Throw (TypeError msg), start))
  /\ (exists cfg,
        sent (snd (ClearAgApi._get ok_transport production_api
                     air_temp VUndef VUndef VUndef start))
        = [cfg]).
Proof.
  split.
  - apply (proj1 (params_precondition_C10 ok_transport)). reflexivity.
  - apply (proj1 (proj2 (proj2 (params_precondition_C10 ok_transport)))
             production_api "/v1.2/historical/daily/air_temp").
    left. reflexivity.
Defined.

(** * Further properties of the two classes *)

(** ** The constructors *)

Section Construction.

Lemma or_else_truthy (a b : value) :
  truthy b = true -> truthy (or_else a b) = true.
Proof.
  intros Hb. unfold or_else. destruct (truthy a) eqn:Ha; assumption.
Qed.

Lemma or_else_default (a b : value) :
  truthy a = false -> or_else a b = b.
Proof. intros Ha. unfold or_else. now rewrite Ha. Qed.

Lemma constructed_api (options : value) (lg : option Logger)
  (this : ClearAgApi.instance) :
  ClearAgApi.constructor options lg = Return this ->
  this = {|
    ClearAgApi.name := VStr "clearag-api";
    ClearAgApi.appId :=
      or_else (or_else (prop options "appId") (prop options "app_id")) (VStr "");
    ClearAgApi.appKey :=
      or_else (or_else (prop options "appKey") (prop options "app_key")) (VStr "");
    ClearAgApi.host :=
      or_else (prop options "host") (VStr "https://ag.us.clearapis.com");
    ClearAgApi.logger := lg;
    ClearAgApi.loggerConfig := prop options "loggerConfig";
    ClearAgApi.logLevel := or_else (prop options "logLevel") (VStr "verbose");
    ClearAgApi.responseType := or_else (prop options "responseType") (VStr "json");
    ClearAgApi.timeout :=
      or_else (prop options "timeout") (VNum (of_int (1000 * 60 * 3)))
  |}.
Proof.
  unfold ClearAgApi.constructor.
  destruct (get_member options "appId"); congruence.
Qed.

Lemma constructed (options : value) (this : ClearAg.instance) :
  ClearAg.constructor options = Return this ->
  this = {|
    ClearAg.appId :=
      or_else (or_else (prop options "appId") (prop options "app_id")) (VStr "");
    ClearAg.appKey :=
      or_else (or_else (prop options "appKey") (prop options "app_key")) (VStr "");
    ClearAg.debug := or_else (prop options "debug") (VBool false);
    ClearAg.host :=
      or_else (prop options "host") (VStr "https://ag.us.clearapis.com")
  |}.
Proof.
  unfold ClearAg.constructor.
  destruct (get_member options "appId"); congruence.
Qed.

End Construction.

(** X3: [new ClearAgApi(options, logger)] and [new ClearAg(options)]
    raise a TypeError exactly when [options] is [undefined] or [null].
    Every instance they build has a truthy host (so also a truthy log
    level, response type and timeout for [ClearAgApi]): a falsy
    option, 0 for the timeout included, is replaced by its default.
    [loggerConfig] alone has no default: it is whatever [options]
    holds, [undefined] when left out. *)
Theorem constructors_fill_defaults (options : value) (lg : option Logger) :
  (nullish options = true ->
   (exists msg, ClearAgApi.constructor options lg = Throw (TypeError msg))
   /\ (exists msg, ClearAg.constructor options = Throw (TypeError msg))) /\
  (nullish options = false ->
   (exists this,
      ClearAgApi.constructor options lg = Return this
      /\ ClearAgApi.logger this = lg
      /\ ClearAgApi.name this = VStr "clearag-api"
      /\ truthy (ClearAgApi.host this) = true
      /\ truthy (ClearAgApi.logLevel this) = true
      /\ truthy (ClearAgApi.responseType this) = true
      /\ truthy (ClearAgApi.timeout this) = true
      /\ (truthy (prop options "timeout") = false ->
          ClearAgApi.timeout this = VNum (of_int 180000))
      /\ ClearAgApi.loggerConfig this = prop options "loggerConfig")
   /\ (exists this,
         ClearAg.constructor options = Return this
         /\ truthy (ClearAg.host this) = true
         /\ (truthy (prop options "host") = false ->
             ClearAg.host this = VStr "https://ag.us.clearapis.com"))).
Proof.
  split; intros Hn.
  - unfold ClearAgApi.constructor, ClearAg.constructor.
    destruct (get_member_nullish options "appId" Hn) as [msg ->]. eauto.
  - unfold ClearAgApi.constructor, ClearAg.constructor.
    rewrite (get_member_present options "appId" Hn).
    split; eexists; (split; [reflexivity|]); simpl;
      repeat split; try (apply or_else_truthy; reflexivity);
      intros Hf; now rewrite or_else_default.
Qed.

Lemma constructors_fill_defaults_witness :
  (exists msg, ClearAgApi.constructor VUndef None = Throw (TypeError msg))
  /\ exists this,
       ClearAgApi.constructor (VObj [("timeout", VNum (of_int 0))]) None
       = Return this
       /\ ClearAgApi.timeout this = VNum (of_int 180000)
       /\ ClearAgApi.loggerConfig this = VUndef.
Proof.
  split.
  - apply (proj1 (constructors_fill_defaults VUndef None) eq_refl).
  - destruct (proj1 (proj2 (constructors_fill_defaults
                               (VObj [("timeout", VNum (of_int 0))]) None)
                       eq_refl))
      as (this & Hc & _ & _ & _ & _ & _ & _ & Ht & Hl).
    exists this. repeat split; [exact Hc|exact (Ht eq_refl)|exact Hl].
Defined.

(** ** From construction to the request *)

Section EndToEnd.

Variable transport : value -> transport_result.

(** The credential an instance built from [options] sends when the
    call names no override. *)
Lemma constructed_credential (a b : value) :
  credential_rule a b (credential (or_else (or_else a b) (VStr "")) VUndef).
Proof.
  unfold credential_rule, credential, or_else.
  destruct (truthy a) eqn:Ha; [|destruct (truthy b) eqn:Hb];
    repeat (progress (cbn iota; rewrite ?Ha, ?Hb));
    repeat split; intros; solve [reflexivity | discriminate].
Qed.

End EndToEnd.

(** X4: an instance built from [options], called through the public
    endpoint method (which passes no per-call override), sends under
    [app_id] the option [appId] when it is truthy, else the option
    [app_id] when that is truthy, else [null]; likewise [app_key] from
    [appKey] and [app_key].  This holds for both classes and all
    arguments of the method. *)
Theorem constructed_credentials_reach_request
  (transport : value -> transport_result) (options : value)
  (start end_ latitude longitude location unitcode : value) (w : world) :
  (forall (lg : option Logger) (this : ClearAgApi.instance),
     ClearAgApi.constructor options lg = Return this ->
     exists cfg,
       sent (snd (ClearAgApi.dailyHistoricalAirTemperature transport this
                    start end_ latitude longitude location unitcode w))
       = (sent w ++ [cfg])%list
       /\ credential_rule (prop options "appId") (prop options "app_id")
            (prop (prop cfg "params") "app_id")
       /\ credential_rule (prop options "appKey") (prop options "app_key")
            (prop (prop cfg "params") "app_key")) /\
  (forall this : ClearAg.instance,
     ClearAg.constructor options = Return this ->
     exists cfg,
       sent (snd (ClearAg.dailyHistoricalAirTemperature transport this
                    start end_ latitude longitude location unitcode w))
       = (sent w ++ [cfg])%list
       /\ credential_rule (prop options "appId") (prop options "app_id")
            (prop (prop cfg "params") "app_id")
       /\ credential_rule (prop options "appKey") (prop options "app_key")
            (prop (prop cfg "params") "app_key")).
Proof.
  split.
  - intros lg this Hc. apply constructed_api in Hc.
    unfold ClearAgApi.dailyHistoricalAirTemperature.
    eexists. split; [apply get_sends; reflexivity|].
    match goal with
    | |- context [tolerant_outbound ?i ?u ?f ?o] =>
        destruct (outbound_params_tolerant i u f o) as [-> ->]
    end.
    subst this. split; apply constructed_credential.
  - intros this Hc. apply constructed in Hc.
    unfold ClearAg.dailyHistoricalAirTemperature.
    eexists. split; [apply httpGet_sends; reflexivity|].
    match goal with
    | |- context [strict_outbound ?i ?f ?o] =>
        destruct (outbound_params_strict i f o) as [-> ->]
    end.
    subst this. split; apply constructed_credential.
Qed.

Lemma constructed_credentials_reach_request_witness :
  exists cfg,
    sent (snd (ClearAgApi.dailyHistoricalAirTemperature ok_transport
                 sink_without_flags
                 start_2020 end_2020 latitude_nyc longitude_nyc VUndef VUndef
                 start))
    = [cfg]
    /\ credential_rule (VStr "id") VUndef (prop (prop cfg "params") "app_id")
    /\ credential_rule (VStr "key") VUndef (prop (prop cfg "params") "app_key").
Proof.
  apply (proj1 (constructed_credentials_reach_request ok_transport
                  (VObj [("appId", VStr "id"); ("appKey", VStr "key")])
                  start_2020 end_2020 latitude_nyc longitude_nyc VUndef VUndef
                  start)
           (Some winston) sink_without_flags eq_refl).
Defined.

(** ** What the pipeline changes in the config, and what it leaves *)

(** X5: the request either pipeline dispatches differs from the
    caller's config only where the pipeline writes: inside [params],
    every key other than [app_id] and [app_key] keeps the caller's
    value; outside it, [_http] keeps every field, and [_request]
    every field other than [url], [responseType] and [timeout]. *)
Theorem injection_leaves_other_keys (transport : value -> transport_result) :
  (forall (this : ClearAgApi.instance) (endpoint config cfg : value) (w : world),
     sent (snd (ClearAgApi._request transport this endpoint config w))
     = (sent w ++ [cfg])%list ->
     (forall k, k <> "app_id" -> k <> "app_key" ->
                prop (prop cfg "params") k = prop (prop config "params") k) /\
     (forall k, k <> "url" -> k <> "responseType" -> k <> "params" ->
                k <> "timeout" -> prop cfg k = prop config k)) /\
  (forall (this : ClearAg.instance) (config cfg : value) (w : world),
     sent (snd (ClearAg._http transport this config w)) = (sent w ++ [cfg])%list ->
     (forall k, k <> "app_id" -> k <> "app_key" ->
                prop (prop cfg "params") k = prop (prop config "params") k) /\
     (forall k, k <> "params" -> prop cfg k = prop config k)).
Proof.
  split.
  - intros this endpoint config cfg w Hs.
    destruct (tolerant_dispatched transport this endpoint config cfg w Hs)
      as (e & fields & params & -> & -> & Hp & ->).
    unfold tolerant_outbound.
    split; intros k; intros;
      destruct (truthy (ClearAgApi.timeout this)); simpl;
      autorewrite with obj; simpl;
      rewrite ?Hp; simpl;
      repeat (rewrite obj_get_set_other by assumption); reflexivity.
  - intros this config cfg w Hs.
    destruct (strict_dispatched transport this config cfg w Hs)
      as (fields & params & -> & Hp & ->).
    unfold strict_outbound.
    split; intros k; intros; simpl; autorewrite with obj; simpl;
      rewrite ?Hp; simpl;
      repeat (rewrite obj_get_set_other by assumption); reflexivity.
Qed.

Definition crowded_config : value :=
  VObj [("method", VStr "GET");
        ("url", VStr "https://elsewhere.example/steal");
        ("responseType", VStr "text");
        ("params", VObj [("app_id", VStr "forged");
                         ("location", VStr "40.71, -74.01")]);
        ("data", VObj [("note", VStr "kept")])].

Lemma injection_leaves_other_keys_witness :
  exists cfg,
    sent (snd (ClearAgApi._request ok_transport production_api air_temp
                 crowded_config start)) = [cfg]
    /\ prop (prop cfg "params") "location" = VStr "40.71, -74.01"
    /\ prop cfg "data" = VObj [("note", VStr "kept")].
Proof.
  eexists. split; [reflexivity|]. split.
  - apply (proj1 (proj1 (injection_leaves_other_keys ok_transport)
                    production_api air_temp crowded_config _ start eq_refl)
             "location"); discriminate.
  - apply (proj2 (proj1 (injection_leaves_other_keys ok_transport)
                    production_api air_temp crowded_config _ start eq_refl)
             "data"); discriminate.
Defined.

(** X6: in the request [_request] dispatches, [url] is what
    [_buildApiUrl] returns for the endpoint and [responseType] is the
    instance's, whatever the caller's config held under those names;
    [timeout] is the instance's when that is truthy, and the caller's
    otherwise. *)
Theorem request_overrides_transport_settings
  (transport : value -> transport_result) (this : ClearAgApi.instance)
  (endpoint config cfg : value) (w : world) :
  sent (snd (ClearAgApi._request transport this endpoint config w))
  = (sent w ++ [cfg])%list ->
  ClearAgApi._buildApiUrl this endpoint = Return (prop cfg "url")
  /\ prop cfg "responseType" = ClearAgApi.responseType this
  /\ prop cfg "timeout"
     = (if truthy (ClearAgApi.timeout this)
        then ClearAgApi.timeout this else prop config "timeout").
Proof.
  intros Hs.
  destruct (tolerant_dispatched transport this endpoint config cfg w Hs)
    as (e & fields & params & -> & -> & Hp & ->).
  unfold tolerant_outbound, url_of.
  destruct (truthy (ClearAgApi.timeout this)); simpl; autorewrite with obj;
    auto.
Qed.

Lemma request_overrides_transport_settings_witness :
  exists cfg,
    sent (snd (ClearAgApi._request ok_transport production_api air_temp
                 crowded_config start)) = [cfg]
    /\ prop cfg "url"
       = VStr "https://ag.us.clearapis.com/v1.2/historical/daily/air_temp"
    /\ prop cfg "responseType" = VStr "json"
    /\ prop cfg "timeout" = VNum (of_int 180000).
Proof.
  eexists. split; [reflexivity|].
  destruct (request_overrides_transport_settings ok_transport production_api
              air_temp crowded_config _ start eq_refl) as (Hu & Hr & Ht).
  split; [|split; [exact Hr|exact Ht]].
  exact (f_equal (fun o => match o with Return v => v | Throw _ => VUndef end)
           (eq_sym Hu)).
Defined.

(** ** One request per call *)

(** X7: a call of either pipeline extends the trace it started from,
    never rewrites it, and never dispatches twice: [_request] raises a
    TypeError before the transport is called and adds nothing, or adds
    one request followed by at most one log line; [_http] raises a
    TypeError and adds nothing, or adds one request and no line. *)
Theorem one_request_per_call (transport : value -> transport_result) :
  (forall (this : ClearAgApi.instance) (endpoint config : value) (w : world),
     (exists msg,
        ClearAgApi._request transport this endpoint config w
        = (Throw (TypeError msg), w)) \/
     (exists cfg,
        snd (ClearAgApi._request transport this endpoint config w)
        = (w ++ [Sent cfg])%list
        \/ exists level line,
             snd (ClearAgApi._request transport this endpoint config w)
             = (w ++ [Sent cfg; Logged level line])%list)) /\
  (forall (this : ClearAg.instance) (config : value) (w : world),
     (exists msg,
        ClearAg._http transport this config w = (Throw (TypeError msg), w)) \/
     (exists cfg,
        snd (ClearAg._http transport this config w) = (w ++ [Sent cfg])%list)).
Proof.
  split.
  - intros this endpoint config w.
    destruct (tolerant_request_cases transport this endpoint config w)
      as [(e & fields & params & -> & -> & Hp)|H]; [right|left; exact H].
    rewrite (tolerant_request_run _ _ _ _ _ _ Hp).
    match goal with
    | |- context [tolerant_exchange ?t ?i ?ep ?c ?w0] =>
        destruct (exchange_trace t i ep c w0) as (tail & Hw & Ht); exists c
    end.
    rewrite Hw. destruct Ht as [->|(l & s & ->)]; eauto.
  - intros this config w.
    destruct (strict_http_cases transport this config w)
      as [(fields & params & -> & Hp)|H]; [right|left; exact H].
    rewrite (strict_http_trace _ _ _ _ _ Hp). eauto.
Qed.

(** ** The two policies side by side *)

(** X8: [ClearAg._http] has no handler: a rejection of the transport,
    one carrying a 404 response included, is raised to the caller as
    it came. *)
Theorem strict_policy_passes_rejections_on
  (transport : value -> transport_result) (this : ClearAg.instance)
  (config cfg : value) (rej : rejection) (w : world) :
  sent (snd (ClearAg._http transport this config w)) = (sent w ++ [cfg])%list ->
  transport cfg = Rejected rej ->
  fst (ClearAg._http transport this config w) = Throw (TransportError rej).
Proof.
  intros Hs Ht.
  destruct (strict_dispatched transport this config cfg w Hs)
    as (fields & params & -> & Hp & ->).
  rewrite (strict_http_run _ _ _ _ _ Hp).
  unfold bind, dispatch. now rewrite Ht.
Qed.

Lemma strict_policy_passes_rejections_on_witness :
  fst (ClearAg._http (rejects_with 404 "Not Found") production plain_config start)
  = Throw (TransportError
             (Rejection "Request failed"
                (Some (Response 404 "Not Found"
                         (VObj [("error", VStr "Not Found")])
                         (VObj [("path", VStr "/v1.2/historical/daily/air_temp")]))))).
Proof.
  apply (strict_policy_passes_rejections_on (rejects_with 404 "Not Found")
           production plain_config _ _ start eq_refl eq_refl).
Defined.

(** X9: [ClearAgApi._request] does not look at the status of a
    response the transport resolved with: when the log step completes
    (no sink, or a line that can be built) it returns the response's
    [data] for every status, one outside [200, 300) included. *)
Theorem tolerant_policy_returns_resolved_data
  (transport : value -> transport_result) (this : ClearAgApi.instance)
  (endpoint config cfg : value) (r : response) (w : world) :
  sent (snd (ClearAgApi._request transport this endpoint config w))
  = (sent w ++ [cfg])%list ->
  transport cfg = Resolved r ->
  ClearAgApi.logger this = None \/
  (exists lg, ClearAgApi.logger this = Some lg
              /\ log_buildable this lg cfg r VUndef = true) ->
  fst (ClearAgApi._request transport this endpoint config w) = Return (data r).
Proof.
  intros Hs Ht Hlog.
  destruct (tolerant_dispatched transport this endpoint config cfg w Hs)
    as (e & fields & params & -> & -> & Hp & ->).
  rewrite (tolerant_request_run _ _ _ _ _ _ Hp),
    (exchange_resolved _ _ _ _ _ r Ht).
  destruct Hlog as [Hn|(lg & Hlg & Hb)].
  - now rewrite writeLog_no_sink.
  - now rewrite (writeLog_built _ lg).
Qed.

Lemma tolerant_policy_returns_resolved_data_witness :
  fst (ClearAgApi._request (answers 500 "Server Error") production_api
         air_temp plain_config start)
  = Return (VObj [("detail", VStr "Server Error")]).
Proof.
  apply (tolerant_policy_returns_resolved_data (answers 500 "Server Error")
           production_api air_temp plain_config _ _ start eq_refl eq_refl).
  left. reflexivity.
Defined.

(** ** The public method, end to end *)

Section PublicMethod.

Variable transport : value -> transport_result.

Lemma get_run (this : ClearAgApi.instance) (e : string)
  (params appId appKey : value) (o : obj) (w : world) :
  or_else params (VObj []) = VObj o ->
  ClearAgApi._get transport this (VStr e) params appId appKey w
  = tolerant_exchange transport this (VStr e)
      (VObj (tolerant_outbound this (url_of (ClearAgApi.host this) e)
               [("method", VStr "GET"); ("params", VObj o);
                ("appId", appId); ("appKey", appKey)] o)) w.
Proof.
  intros Ho. unfold ClearAgApi._get. rewrite Ho.
  now erewrite tolerant_request_run by reflexivity.
Qed.

End PublicMethod.

(** X10: on an instance with no sink, for all arguments,
    [ClearAgApi.dailyHistoricalAirTemperature] dispatches one request
    and answers by the transport alone: the response's [data] when the
    transport resolves, [null] when it rejects with a 404 response,
    and the transport's own error when it rejects with another status
    or with no response. *)
Theorem air_temperature_outcomes (transport : value -> transport_result)
  (this : ClearAgApi.instance)
  (start end_ latitude longitude location unitcode : value) (w : world) :
  ClearAgApi.logger this = None ->
  exists cfg,
    snd (ClearAgApi.dailyHistoricalAirTemperature transport this
           start end_ latitude longitude location unitcode w)
    = (w ++ [Sent cfg])%list
    /\ (forall r,
          transport cfg = Resolved r ->
          fst (ClearAgApi.dailyHistoricalAirTemperature transport this
                 start end_ latitude longitude location unitcode w)
          = Return (data r))
    /\ (forall rej r,
          transport cfg = Rejected rej -> attached rej = Some r ->
          status r = 404 ->
          fst (ClearAgApi.dailyHistoricalAirTemperature transport this
                 start end_ latitude longitude location unitcode w)
          = Return VNull)
    /\ (forall rej,
          transport cfg = Rejected rej ->
          attached rej = None
          \/ (exists r, attached rej = Some r /\ status r <> 404) ->
          fst (ClearAgApi.dailyHistoricalAirTemperature transport this
                 start end_ latitude longitude location unitcode w)
          = Throw (TransportError rej)).
Proof.
  intros Hn.
  unfold ClearAgApi.dailyHistoricalAirTemperature.
  erewrite get_run by reflexivity.
  match goal with
  | |- context [tolerant_exchange _ _ ?ep ?c _] =>
      set (endpoint := ep); set (cfg := c)
  end.
  exists cfg. repeat split.
  - destruct (transport cfg) as [r|rej] eqn:Ht.
    + rewrite (exchange_resolved _ _ _ _ _ r Ht), writeLog_no_sink by assumption.
      reflexivity.
    + destruct (attached rej) as [r|] eqn:Ha.
      * rewrite (exchange_rejected_attached _ _ _ _ _ rej r Ht Ha),
          writeLog_no_sink by assumption.
        now destruct (status r =? 404).
      * now rewrite (exchange_rejected_bare _ _ _ _ _ rej Ht Ha).
  - intros r Ht.
    now rewrite (exchange_resolved _ _ _ _ _ r Ht), writeLog_no_sink.
  - intros rej r Ht Ha H4.
    rewrite (exchange_rejected_attached _ _ _ _ _ rej r Ht Ha),
      writeLog_no_sink by assumption.
    now rewrite H4.
  - intros rej Ht [Ha|(r & Ha & H4)].
    + now rewrite (exchange_rejected_bare _ _ _ _ _ rej Ht Ha).
    + rewrite (exchange_rejected_attached _ _ _ _ _ rej r Ht Ha),
        writeLog_no_sink by assumption.
      apply Z.eqb_neq in H4. now rewrite H4.
Qed.

Lemma air_temperature_outcomes_witness :
  exists cfg,
    snd (ClearAgApi.dailyHistoricalAirTemperature (rejects_with 404 "Not Found")
           production_api
           start_2020 end_2020 latitude_nyc longitude_nyc VUndef VUndef start)
    = [Sent cfg]
    /\ fst (ClearAgApi.dailyHistoricalAirTemperature
              (rejects_with 404 "Not Found") production_api
              start_2020 end_2020 latitude_nyc longitude_nyc VUndef VUndef start)
       = Return VNull.
Proof.
  destruct (air_temperature_outcomes (rejects_with 404 "Not Found")
              production_api
              start_2020 end_2020 latitude_nyc longitude_nyc VUndef VUndef
              start eq_refl) as (cfg & Hw & _ & H404 & _).
  exists cfg. split; [exact Hw|].
  exact (H404 _ _ eq_refl eq_refl eq_refl).
Defined.

(** X11: the endpoint has to be a string: for every other value both
    GET helpers raise a TypeError (from [endpoint.substring]) and the
    transport is not called. *)
Theorem endpoint_must_be_string (transport : value -> transport_result)
  (endpoint : value) :
  (forall e, endpoint <> VStr e) ->
  (forall (this : ClearAgApi.instance) (params appId appKey : value) (w : world),
     exists msg,
       ClearAgApi._get transport this endpoint params appId appKey w
       = (Throw (TypeError msg), w)) /\
  (forall (this : ClearAg.instance) (params appId appKey : value) (w : world),
     exists msg,
       ClearAg._httpGet transport this endpoint params appId appKey w
       = (Throw (TypeError msg), w)).
Proof.
  intros Hne.
  destruct endpoint as [| |b|n|e|o]; try (now destruct (Hne e));
    split; intros;
    unfold ClearAgApi._get, ClearAgApi._request, ClearAg._httpGet, bind, lift;
    simpl; eauto.
Qed.

Lemma endpoint_must_be_string_witness :
  exists msg,
    ClearAgApi._get ok_transport production_api VUndef VUndef VUndef VUndef start
    = (Throw (TypeError msg), start).
Proof.
  apply (proj1 (endpoint_must_be_string ok_transport VUndef
                  ltac:(intros e; discriminate))).
Defined.

(** ** The URL builder, once more *)

Section LeadingSlash.

Lemma first_char_slash (p : string) :
  String.eqb (substring 0 1 p) "/" = prefix "/" p.
Proof.
  destruct p as [|c rest]; [reflexivity|].
  assert (Hs : substring 0 1 (String c rest) = String c "")
    by (destruct rest; reflexivity).
  rewrite Hs. cbn [prefix String.eqb].
  destruct (Ascii.ascii_dec "/" c) as [<-|Hne].
  - rewrite Ascii.eqb_refl. now destruct rest.
  - apply not_eq_sym, Ascii.eqb_neq in Hne. now rewrite Hne.
Qed.

Lemma append_assoc (a b c : string) : (a ++ b) ++ c = a ++ (b ++ c).
Proof.
  induction a as [|x a IH]; [reflexivity|].
  cbn [append]. now rewrite IH.
Qed.

Lemma prefix_refl (a : string) : prefix a a = true.
Proof.
  induction a as [|c a IH]; [reflexivity|].
  simpl. now destruct (Ascii.ascii_dec c c).
Qed.

Lemma prefix_app (a b : string) : prefix a (a ++ b) = true.
Proof.
  induction a as [|c a IH]; [now destruct b|].
  simpl. now destruct (Ascii.ascii_dec c c).
Qed.

End LeadingSlash.

(** X12: the leading "/" of an endpoint is optional: for a path
    that does not start with "/", both classes build the same URL for
    the path and for "/" + path, whatever the host holds; and the URL
    built for any path starts with the host followed by "/". *)
Theorem buildApiUrl_leading_slash_optional (p : string) :
  (prefix "/" p = false ->
   (forall this : ClearAg.instance,
      ClearAg._buildApiUrl this (VStr ("/" ++ p))
      = ClearAg._buildApiUrl this (VStr p))
   /\ (forall this : ClearAgApi.instance,
         ClearAgApi._buildApiUrl this (VStr ("/" ++ p))
         = ClearAgApi._buildApiUrl this (VStr p))) /\
  (forall this : ClearAg.instance,
     exists url,
       ClearAg._buildApiUrl this (VStr p) = Return (VStr url)
       /\ prefix (to_string (ClearAg.host this) ++ "/") url = true) /\
  (forall this : ClearAgApi.instance,
     exists url,
       ClearAgApi._buildApiUrl this (VStr p) = Return (VStr url)
       /\ prefix (to_string (ClearAgApi.host this) ++ "/") url = true).
Proof.
  assert (Hurl : forall h : string,
             prefix (h ++ "/")
               (h ++ (if negb (String.eqb (substring 0 1 p) "/")
                      then "/" ++ p else p)) = true).
  { intros h. rewrite first_char_slash.
    destruct (prefix "/" p) eqn:Hp; cbn [negb].
    - destruct p as [|c rest]; cbn [prefix] in Hp; [discriminate|].
      destruct (Ascii.ascii_dec "/" c) as [<-|]; [|discriminate].
      change (String "/" rest) with ("/" ++ rest).
      rewrite <- append_assoc. apply prefix_app.
    - rewrite <- append_assoc. apply prefix_app. }
  split; [|split].
  - intros Hp.
    split; intros this;
      unfold ClearAg._buildApiUrl, ClearAgApi._buildApiUrl;
      rewrite !first_char_slash, Hp;
      replace (prefix "/" ("/" ++ p)) with true by (now destruct p);
      reflexivity.
  - intros this. eexists. split; [reflexivity|]. apply Hurl.
  - intros this. eexists. split; [reflexivity|]. apply Hurl.
Qed.

Lemma buildApiUrl_leading_slash_optional_witness :
  ClearAgApi._buildApiUrl production_api (VStr "/v1.2/soil")
  = ClearAgApi._buildApiUrl production_api (VStr "v1.2/soil").
Proof.
  apply (proj2 (proj1 (buildApiUrl_leading_slash_optional "v1.2/soil") eq_refl)
           production_api).
Defined.

(** ** The log line, once more *)

Section Tag.

Lemma join_starts_with_first (sep : string) (v : value) (rest : list value) :
  prefix (to_string v) (join sep (v :: rest)) = true.
Proof.
  destruct rest as [|v' rest']; simpl.
  - apply prefix_refl.
  - apply prefix_app.
Qed.

End Tag.

(** X13: every line [_writeLog] hands to the sink starts with the
    bracketed client name; it is logged at the level the caller
    passed, or at [this.logLevel] when the caller passed none, and
    only through a method the sink has. *)
Theorem log_line_tag_and_level (this : ClearAgApi.instance)
  (endpoint axiosConfig : value) (r : response) (logLevel : value)
  (w : world) (level line : string) :
  snd (ClearAgApi._writeLog this endpoint axiosConfig r logLevel w)
  = (w ++ [Logged level line])%list ->
  prefix ("[" ++ to_string (ClearAgApi.name this) ++ "]") line = true
  /\ level
     = to_string (match logLevel with
                  | VUndef => ClearAgApi.logLevel this
                  | _ => logLevel
                  end)
  /\ exists lg, ClearAgApi.logger this = Some lg /\ has_method lg level = true.
Proof.
  intros Hw.
  destruct (ClearAgApi.logger this) as [lg|] eqn:Hlg.
  - destruct (log_buildable this lg axiosConfig r logLevel) eqn:Hb.
    + rewrite (writeLog_built _ lg) in Hw by assumption. simpl in Hw.
      apply app_inv_head in Hw. injection Hw as <- <-.
      split; [|split].
      * unfold log_line, log_segments, compact. cbn [filter truthy].
        cbn [append String.eqb negb].
        apply (join_starts_with_first " "
                 (VStr ("[" ++ to_string (ClearAgApi.name this) ++ "]"))).
      * reflexivity.
      * exists lg. split; [reflexivity|].
        unfold log_buildable in Hb.
        apply andb_prop in Hb. apply Hb.
    + destruct (writeLog_fault this lg endpoint axiosConfig r logLevel w Hlg Hb)
        as [msg E].
      rewrite E in Hw. simpl in Hw. now apply not_extended in Hw.
  - rewrite writeLog_no_sink in Hw by assumption.
    simpl in Hw. now apply not_extended in Hw.
Qed.

Lemma log_line_tag_and_level_witness :
  prefix "[clearag-api]"
    "[clearag-api] get /v1.2/historical/daily/air_temp 200 OK true" = true
  /\ "verbose" = to_string (VStr "verbose")
  /\ exists lg,
       ClearAgApi.logger (sink_with (VObj [("response", VBool true)])) = Some lg
       /\ has_method lg "verbose" = true.
Proof.
  apply (log_line_tag_and_level
           (sink_with (VObj [("response", VBool true)]))
           air_temp plain_config
           (Response 200 "OK" (VBool true) VUndef) VUndef start
           "verbose"
           "[clearag-api] get /v1.2/historical/daily/air_temp 200 OK true"
           eq_refl).
Defined.

(** ** The parameters of the endpoint method *)

(** X14: whatever the arguments, the request the endpoint method of
    either class dispatches has a truthy [location] parameter, and
    carries [start], [end] and [unitcode] exactly as the caller gave
    them: nothing is validated or converted on the way. *)
Theorem location_parameter_never_empty (transport : value -> transport_result)
  (start end_ latitude longitude location unitcode : value) (w : world) :
  (forall this : ClearAgApi.instance,
     exists cfg,
       sent (snd (ClearAgApi.dailyHistoricalAirTemperature transport this
                    start end_ latitude longitude location unitcode w))
       = (sent w ++ [cfg])%list
       /\ truthy (prop (prop cfg "params") "location") = true
       /\ prop (prop cfg "params") "start" = start
       /\ prop (prop cfg "params") "end" = end_
       /\ prop (prop cfg "params") "unitcode" = unitcode) /\
  (forall this : ClearAg.instance,
     exists cfg,
       sent (snd (ClearAg.dailyHistoricalAirTemperature transport this
                    start end_ latitude longitude location unitcode w))
       = (sent w ++ [cfg])%list
       /\ truthy (prop (prop cfg "params") "location") = true
       /\ prop (prop cfg "params") "start" = start
       /\ prop (prop cfg "params") "end" = end_
       /\ prop (prop cfg "params") "unitcode" = unitcode).
Proof.
  assert (Hplace : truthy (if truthy location then location
                           else VStr (to_string latitude ++ ", "
                                        ++ to_string longitude)) = true).
  { destruct (truthy location) eqn:Hl; [exact Hl|].
    simpl. apply negb_true_iff, String.eqb_neq.
    apply append_nonempty. discriminate. }
  split; intros this.
  - destruct (air_temperature_passes transport this
                start end_ latitude longitude location unitcode w)
      as (_ & cfg & Hs & _ & _ & H1 & H2 & H3 & H4).
    exists cfg. rewrite H3. auto.
  - destruct (strict_air_temperature_passes transport this
                start end_ latitude longitude location unitcode w)
      as (_ & cfg & Hs & _ & _ & H1 & H2 & H3 & H4).
    exists cfg. rewrite H3. auto.
Qed.

(** ** The public method of the strict class *)

(** X15: for all arguments, [ClearAg.dailyHistoricalAirTemperature]
    dispatches one request and logs nothing; it returns the
    response's [data] for a status in [200, 300), raises for any other
    status the error whose message is status + " - " + host +
    "/v1.2/historical/daily/air_temp" + " failed" (with [code] and
    [meta]), and passes a rejection of the transport on. *)
Theorem strict_air_temperature_outcomes (transport : value -> transport_result)
  (this : ClearAg.instance)
  (start end_ latitude longitude location unitcode : value) (w : world) :
  exists cfg,
    snd (ClearAg.dailyHistoricalAirTemperature transport this
           start end_ latitude longitude location unitcode w)
    = (w ++ [Sent cfg])%list
    /\ (forall r,
          transport cfg = Resolved r -> 200 <= status r < 300 ->
          fst (ClearAg.dailyHistoricalAirTemperature transport this
                 start end_ latitude longitude location unitcode w)
          = Return (data r))
    /\ (forall r,
          transport cfg = Resolved r -> ~ 200 <= status r < 300 ->
          fst (ClearAg.dailyHistoricalAirTemperature transport this
                 start end_ latitude longitude location unitcode w)
          = Throw (StatusError
                     (number_to_string (of_int (status r)) ++ " - "
                        ++ (to_string (ClearAg.host this)
                              ++ "/v1.2/historical/daily/air_temp")
                        ++ " failed")
                     (status r) (data r)))
    /\ (forall rej,
          transport cfg = Rejected rej ->
          fst (ClearAg.dailyHistoricalAirTemperature transport this
                 start end_ latitude longitude location unitcode w)
          = Throw (TransportError rej)).
Proof.
  set (run := ClearAg.dailyHistoricalAirTemperature transport this
                start end_ latitude longitude location unitcode w).
  assert (E : exists cfg,
             run =
             (response <- dispatch transport cfg ;;
              if negb (ClearAg._isResponseSuccessful response) then
                raise (StatusError
                         (number_to_string (of_int (status response)) ++ " - "
                            ++ (to_string (ClearAg.host this)
                                  ++ "/v1.2/historical/daily/air_temp")
                            ++ " failed")
                         (status response) (data response))
              else ret (data response)) w).
  { subst run.
    unfold ClearAg.dailyHistoricalAirTemperature, ClearAg._httpGet.
    unfold bind at 1, lift. cbn [ClearAg._buildApiUrl substring String.eqb
      Ascii.eqb Bool.eqb negb or_else truthy].
    erewrite strict_http_run by reflexivity. eexists. reflexivity. }
  destruct E as [cfg E]. rewrite E. clear E run.
  exists cfg. unfold bind, dispatch, ClearAg._isResponseSuccessful, raise, ret.
  split; [|split; [|split]].
  - destruct (transport cfg) as [r|rej]; [|reflexivity].
    now destruct (negb _).
  - intros r Ht Hr. rewrite Ht.
    replace (status r >=? 200) with true by (symmetry; apply Z.geb_le; lia).
    replace (status r <? 300) with true by (symmetry; apply Z.ltb_lt; lia).
    reflexivity.
  - intros r Ht Hr. rewrite Ht.
    destruct (status r >=? 200) eqn:E1; destruct (status r <? 300) eqn:E2;
      try reflexivity.
    apply Z.geb_le in E1. apply Z.ltb_lt in E2. lia.
  - intros rej Ht. now rewrite Ht.
Qed.

Lemma strict_air_temperature_outcomes_witness :
  fst (ClearAg.dailyHistoricalAirTemperature (answers 503 "Busy") production
         start_2020 end_2020 latitude_nyc longitude_nyc VUndef VUndef start)
  = Throw (StatusError
             "503 - https://ag.us.clearapis.com/v1.2/historical/daily/air_temp failed"
             503 (VObj [("detail", VStr "Busy")])).
Proof.
  destruct (strict_air_temperature_outcomes (answers 503 "Busy") production
              start_2020 end_2020 latitude_nyc longitude_nyc VUndef VUndef start)
    as (cfg & _ & _ & H & _).
  apply (H _ eq_refl). simpl. lia.
Defined.

(** ** The timeout of a constructed instance *)

(** X16: every request an instance built by [new ClearAgApi(options,
    logger)] dispatches carries a truthy [timeout], the instance's:
    [options.timeout] when truthy and 180000 otherwise.  Neither a
    [timeout] of 0 in the options nor a [timeout] in the caller's
    config takes it away. *)
Theorem constructed_instance_always_times_out
  (transport : value -> transport_result) (options : value)
  (lg : option Logger) (this : ClearAgApi.instance)
  (endpoint config cfg : value) (w : world) :
  ClearAgApi.constructor options lg = Return this ->
  sent (snd (ClearAgApi._request transport this endpoint config w))
  = (sent w ++ [cfg])%list ->
  truthy (prop cfg "timeout") = true
  /\ prop cfg "timeout"
     = (if truthy (prop options "timeout")
        then prop options "timeout" else VNum (of_int 180000)).
Proof.
  intros Hc Hs. apply constructed_api in Hc.
  destruct (tolerant_dispatched transport this endpoint config cfg w Hs)
    as (e & fields & params & -> & -> & Hp & ->).
  assert (Ht : truthy (ClearAgApi.timeout this) = true)
    by (subst this; apply or_else_truthy; reflexivity).
  unfold tolerant_outbound. rewrite Ht. simpl. autorewrite with obj.
  split; [exact Ht|]. now subst this.
Qed.

Lemma constructed_instance_always_times_out_witness :
  exists cfg,
    sent (snd (ClearAgApi._request ok_transport sink_without_flags air_temp
                 (VObj [("params", VObj []); ("timeout", VNum (of_int 5))])
                 start)) = [cfg]
    /\ prop cfg "timeout" = VNum (of_int 180000).
Proof.
  eexists. split; [reflexivity|].
  apply (proj2 (constructed_instance_always_times_out ok_transport
                  (VObj [("appId", VStr "id"); ("appKey", VStr "key")])
                  (Some winston) sink_without_flags air_temp
                  (VObj [("params", VObj []); ("timeout", VNum (of_int 5))])
                  _ start eq_refl eq_refl)).
Defined.
